(** * bentoml-comfyui: the [comfyui] command group of [cli.py]

    A shallow embedding of [src/bentoml_comfyui/cli.py]: the workspace
    validator [_check_comfyui_workspace] and the two click commands [pack]
    and [build].  The commands are sequences of effects (file system
    accesses, [rich.print] calls, calls into the BentoML platform), so they
    are embedded in a state-and-exception monad over an explicit [World]
    that holds the file system, and every run yields the log of its effects
    in program order.

    [pack] and [build] are the bodies of the click commands.  Before a body
    runs click checks the path arguments: WORKSPACE must exist, WORKFLOW
    must exist and must not be a directory; a body is not run on another
    argument. *)

From Stdlib Require Import Ascii.
From Stdlib Require String.
From stdpp Require Import base option list strings gmap fin_maps.

(** ** Strings *)

Module Str.

Definition newline : string := String (Ascii.ascii_of_nat 10) "".

(** [x in s] of Python, as a proposition and as a test. *)
Definition Substring (x s : string) : Prop :=
  ∃ pre post : string, s = pre +:+ x +:+ post.

(** [s.startswith(x)] *)
Fixpoint prefixb (x s : string) : bool :=
  match x, s with
  | EmptyString, _ => true
  | String a x', String b s' => Ascii.eqb a b && prefixb x' s'
  | String _ _, EmptyString => false
  end.

Fixpoint substringb (x s : string) : bool :=
  prefixb x s ||
  match s with
  | EmptyString => false
  | String _ s' => substringb x s'
  end.

(** ["".join(l)] *)
Fixpoint concat (l : list string) : string :=
  match l with
  | [] => ""
  | s :: l' => s +:+ concat l'
  end.

(** [sep.join(l)] *)
Fixpoint join (sep : string) (l : list string) : string :=
  match l with
  | [] => ""
  | [s] => s
  | s :: l' => s +:+ sep +:+ join sep l'
  end.

(** [s.split(sep)] for a one character separator: the fields between
    the separators, empty fields included. *)
Fixpoint split_acc (sep : ascii) (acc s : string) : list string :=
  match s with
  | EmptyString => [acc]
  | String c s' =>
      if Ascii.eqb c sep then acc :: split_acc sep "" s'
      else split_acc sep (acc +:+ String c "") s'
  end.

Definition split (sep : ascii) (s : string) : list string :=
  split_acc sep "" s.

Fixpoint mem (c : ascii) (s : string) : bool :=
  match s with
  | EmptyString => false
  | String d s' => Ascii.eqb c d || mem c s'
  end.

End Str.

(** ** [repr] of a [str]

    The f-strings of the module format the paths with [!r].  CPython picks
    the quote (a double quote when the text holds a single quote and no
    double quote, a single quote otherwise), escapes the backslash, the
    chosen quote, tab, line feed and carriage return, and writes the other
    control characters as [\xNN].  A Rocq string is a byte string: bytes
    from 128 on are kept as they are.  This is [repr] for the characters
    beyond ASCII that are printable; CPython escapes the others (the
    no-break space is written [\xa0]). *)

Module Repr.

Definition hex_digit (n : nat) : ascii :=
  match String.get n "0123456789abcdef" with
  | Some c => c
  | None => "0"%char
  end.

Definition dquote : ascii := Ascii.ascii_of_nat 34.

Definition quote_of (s : string) : ascii :=
  if Str.mem "'"%char s && negb (Str.mem dquote s)
  then dquote else "'"%char.

Definition escape_char (q c : ascii) : string :=
  let n := Ascii.nat_of_ascii c in
  if Ascii.eqb c q || Ascii.eqb c "\"%char then String "\"%char (String c "")
  else if Nat.eqb n 9 then "\t"
  else if Nat.eqb n 10 then "\n"
  else if Nat.eqb n 13 then "\r"
  else if Nat.ltb n 32 || Nat.eqb n 127
       then "\x" +:+ String (hex_digit (n / 16)) (String (hex_digit (n mod 16)) "")
  else String c "".

Fixpoint escape (q : ascii) (s : string) : string :=
  match s with
  | EmptyString => ""
  | String c s' => escape_char q c +:+ escape q s'
  end.

Definition repr (s : string) : string :=
  let q := quote_of s in
  String q (escape q s) +:+ String q "".

End Repr.

(** ** [pathlib.Path] on POSIX

    [Path(a, b, ...)] parses each segment: a segment that starts with a
    slash restarts the path at its root; empty components and [.]
    components are dropped; two leading slashes (and only two) are kept as
    the root [//].  [str] of the result joins the components with [/] and
    is [.] for the empty path. *)

Module Pathlib.

Definition root_of (seg : string) : string :=
  match seg with
  | String "/" (String "/" (String "/" _)) => "/"
  | String "/" (String "/" _) => "//"
  | String "/" _ => "/"
  | _ => ""
  end.

Definition is_component (p : string) : bool :=
  negb (String.eqb p "" || String.eqb p ".").

Definition components (seg : string) : list string :=
  List.filter is_component (Str.split "/" seg).

Record PurePath := MkPath { root : string; parts : list string }.

Definition add_segment (p : PurePath) (seg : string) : PurePath :=
  if String.eqb (root_of seg) ""
  then MkPath (root p) (parts p ++ components seg)
  else MkPath (root_of seg) (components seg).

Definition Path (segs : list string) : PurePath :=
  fold_left add_segment segs (MkPath "" []).

Definition joinpath (p : PurePath) (seg : string) : PurePath :=
  add_segment p seg.

Definition str (p : PurePath) : string :=
  match root p, parts p with
  | EmptyString, [] => "."
  | r, l => r +:+ Str.join "/" l
  end.

End Pathlib.

(** ** [str.format] with keyword arguments

    The fragment of the format mini-language that needs no conversion: text,
    the doubled braces [{{] and [}}], and fields [{key}].  A field whose
    name is empty or a number asks for a positional argument, and [format]
    is called with keyword arguments only.  Attribute and index lookups,
    conversions ([!r]) and format specifications ([:>8]) are outside the
    fragment and are reported as [Unmodelled]. *)

Inductive Exn :=
| InvalidArgument (msg : string)
| FileNotFoundError (path : string)
| IsADirectoryError (path : string)
| FileExistsError
| KeyError (key : string)
| IndexError
| ValueError (msg : string)
| Unmodelled (what : string)
| MarkupError (msg : string)
| PlatformError (what : string).

Module Format.

Inductive piece := Lit (c : ascii) | Field (key : string).

Inductive mode := Text | InField (acc : string).

Definition push_piece (p : piece) (r : Exn + list piece) : Exn + list piece :=
  match r with
  | inl e => inl e
  | inr ps => inr (p :: ps)
  end.

Fixpoint parse (m : mode) (s : string) : Exn + list piece :=
  match m, s with
  | Text, EmptyString => inr []
  | Text, String "{" EmptyString =>
      inl (ValueError "Single '{' encountered in format string")
  | Text, String "{" (String "{" s'') => push_piece (Lit "{") (parse Text s'')
  | Text, String "{" s' => parse (InField "") s'
  | Text, String "}" (String "}" s'') => push_piece (Lit "}") (parse Text s'')
  | Text, String "}" _ =>
      inl (ValueError "Single '}' encountered in format string")
  | Text, String c s' => push_piece (Lit c) (parse Text s')
  | InField _, EmptyString =>
      inl (ValueError "expected '}' before end of string")
  | InField acc, String "}" s' => push_piece (Field acc) (parse Text s')
  | InField acc, String c s' =>
      if Str.mem c "{!:.[" then inl (Unmodelled "replacement field")
      else parse (InField (acc +:+ String c "")) s'
  end.

Definition is_digit (c : ascii) : bool := Str.mem c "0123456789".

Fixpoint all_digits (s : string) : bool :=
  match s with
  | EmptyString => true
  | String c s' => is_digit c && all_digits s'
  end.

Fixpoint lookup_kw (key : string) (kwargs : list (string * string)) : option string :=
  match kwargs with
  | [] => None
  | (k, v) :: rest => if String.eqb k key then Some v else lookup_kw key rest
  end.

Definition render_piece (kwargs : list (string * string)) (p : piece) : Exn + string :=
  match p with
  | Lit c => inr (String c "")
  | Field key =>
      if all_digits key then inl IndexError
      else match lookup_kw key kwargs with
           | Some v => inr v
           | None => inl (KeyError key)
           end
  end.

Fixpoint render (kwargs : list (string * string)) (ps : list piece) : Exn + string :=
  match ps with
  | [] => inr ""
  | p :: ps' =>
      match render_piece kwargs p with
      | inl e => inl e
      | inr s =>
          match render kwargs ps' with
          | inl e => inl e
          | inr t => inr (s +:+ t)
          end
      end
  end.

(** [template.format] with keyword arguments.  The template is parsed whole
    and then rendered left to right; CPython renders each field as it meets
    it.  On a template of the fragment the two agree on whether [format]
    returns and on the text it returns; for a template with several faults the exception reported here
    is the one of the first malformed part, if any, and otherwise the one of
    the first field that cannot be looked up. *)
Definition format (template : string) (kwargs : list (string * string)) : Exn + string :=
  match parse Text template with
  | inl e => inl e
  | inr ps => render kwargs ps
  end.

(** The template has a replacement field [{key}]. *)
Definition mentions (template key : string) : Prop :=
  ∃ ps, parse Text template = inr ps ∧ In (Field key) ps.

End Format.

(** ** Console markup of [rich]

    [rich.print] reads its argument as console markup.  A tag is a bracket
    pair around a name: [[blue]] opens a style, [[/]] closes the style opened
    last and [[/blue]] closes the style [blue].  Rendering raises
    [MarkupError] at a closing tag that has nothing to close, and at a
    closing tag that ends a handler tag ([[@click=...]]) whose parameters
    cannot be read; a style left open and a style name that is not known
    are accepted.  Which named closing tag matches which open style is
    decided by the style parser of the library, which is not modelled.

    [safe text] is a test that the markup of [text] renders: the text has no
    backslash (the escape of a tag), no handler tag, no closing tag but
    [[/]], and every [[/]] comes after an opening tag [[name]], with a name
    of lower case letters, that no earlier [[/]] has closed.  The other
    opening tags of the text can only add to the styles that are open. *)

Module Markup.

Inductive state :=
| Outside  (* not in a tag *)
| Opened   (* after the opening bracket *)
| InName   (* after the opening bracket and lower case letters *)
| Closing. (* after the opening bracket and a slash *)

Definition backslash : ascii := Ascii.ascii_of_nat 92.

Definition is_lower (c : ascii) : bool :=
  (97 <=? nat_of_ascii c)%nat && (nat_of_ascii c <=? 122)%nat.

(** [depth] counts the opening tags [[name]] seen that are still open. *)
Fixpoint scan (st : state) (depth : nat) (s : string) : bool :=
  match s with
  | EmptyString => true
  | String c s' =>
      if Ascii.eqb c backslash then false
      else
        match st with
        | Closing =>
            if Ascii.eqb c "]" then
              match depth with
              | O => false
              | S d => scan Outside d s'
              end
            else false
        | Opened =>
            if Ascii.eqb c "[" then scan Opened depth s'
            else if Ascii.eqb c "/" then scan Closing depth s'
            else if Ascii.eqb c "@" then false
            else if is_lower c then scan InName depth s'
            else scan Outside depth s'
        | InName =>
            if Ascii.eqb c "[" then scan Opened depth s'
            else if Ascii.eqb c "]" then scan Outside (S depth) s'
            else if is_lower c then scan InName depth s'
            else scan Outside depth s'
        | Outside =>
            if Ascii.eqb c "[" then scan Opened depth s'
            else scan Outside depth s'
        end
  end.

Definition safe (text : string) : bool := scan Outside 0 text.

End Markup.

(** ** The world: file system, temporary names, effect log

    The file system maps a path to a node.  The operating system resolves a
    path given as text the way [Path] parses it, so the key of a [str]
    argument [s] is [Path [s]]; symbolic links, [..] and the working
    directory are not interpreted.  An event of the log is paired with the
    file system as it was when the effect started. *)

Import Pathlib.

Global Instance PurePath_eq_dec : EqDecision PurePath.
Proof. solve_decision. Defined.

Global Instance PurePath_countable : Countable PurePath :=
  inj_countable' (λ p, (root p, parts p)) (λ rp, MkPath rp.1 rp.2)
    (λ p, match p with MkPath _ _ => eq_refl end).

Inductive Node := File (content : string) | Dir.

Record Bento := MkBento { bento_tag : string }.

(** The arguments of the call [bentoml.build(...)] in [build]. *)
Record BuildArgs := MkBuildArgs {
  arg_service : string;
  arg_name : string;
  arg_version : option string;
  arg_build_ctx : string;
  arg_docker_system_packages : list string;
  arg_python_requirements_txt : string;
  arg_python_lock_packages : bool;
  arg_include : list string
}.

Inductive Event :=
| EvPrint (text : string)
| EvPackModel (name workspace : string)
| EvGetRequirements (python : option string)
| EvBuild (args : BuildArgs)
| EvPush (bento : Bento)
| EvMkdtemp (dir : string)
| EvOpen (path : PurePath)
| EvWrite (path : PurePath) (data : string)
| EvCopy2 (src : string) (dst : PurePath)
| EvCleanup (dir : string).

Record World := MkWorld {
  fs : gmap PurePath Node;
  gettempdir : string;
  tmpnames : list string
}.

(** What the module calls and does not define: [pack_model] and
    [get_requirements] of [_core], the text of [_service.tpl], and
    [bentoml.build] and [bentoml.push].  Each call may read the file system
    and either returns or raises; the stores the platform writes to are
    outside the modelled file system.  [rich_render text] is what the markup
    renderer of [rich] does with a text that [Markup.safe] does not accept:
    it returns, or raises [MarkupError]. *)
Record Platform := MkPlatform {
  pack_model : string → string → gmap PurePath Node → Exn + string;
  get_requirements : option string → gmap PurePath Node → Exn + string;
  service_template : string;
  bentoml_build : BuildArgs → gmap PurePath Node → Exn + Bento;
  bentoml_push : Bento → gmap PurePath Node → Exn + unit;
  rich_render : string → Exn + unit
}.

(** ** The monad of commands

    A command runs in a world and gives a result (a value or a raised
    exception), the world it leaves, and the log of its effects. *)

Inductive Res (A : Type) :=
| Ok (a : A)
| Raise (e : Exn).
Arguments Ok {A} a.
Arguments Raise {A} e.

Record Outcome (A : Type) := MkOutcome {
  result : Res A;
  final : World;
  events : list (Event * gmap PurePath Node)
}.
Arguments MkOutcome {A} _ _ _.
Arguments result {A} _.
Arguments final {A} _.
Arguments events {A} _.

Definition M (A : Type) : Type := World → Outcome A.

Definition ret {A} (a : A) : M A := λ w, MkOutcome (Ok a) w [].

Definition raise {A} (e : Exn) : M A := λ w, MkOutcome (Raise e) w [].

Definition bind {A B} (m : M A) (k : A → M B) : M B :=
  λ w, let o := m w in
       match result o with
       | Ok a =>
           let o' := k a (final o) in
           MkOutcome (result o') (final o') (events o ++ events o')
       | Raise e => MkOutcome (Raise e) (final o) (events o)
       end.

(** The [x ← m; k] and [m ;; k] notations of stdpp read as [bind]. *)
Global Instance M_bind : MBind M := λ A B k m, bind m k.
Global Instance M_ret : MRet M := λ A a, ret a.

(** [for x in xs: body x] *)
Fixpoint for_each {A} (xs : list A) (body : A → M unit) : M unit :=
  match xs with
  | [] => ret tt
  | x :: xs' => body x ;; for_each xs' body
  end.

Definition lift {A} (r : Exn + A) : M A :=
  match r with
  | inl e => raise e
  | inr a => ret a
  end.

Definition with_fs (w : World) (m : gmap PurePath Node) : World :=
  MkWorld m (gettempdir w) (tmpnames w).

Definition set_fs (f : gmap PurePath Node → gmap PurePath Node) : M unit :=
  λ w, MkOutcome (Ok tt) (with_fs w (f (fs w))) [].

Definition get_fs : M (gmap PurePath Node) := λ w, MkOutcome (Ok (fs w)) w [].

Definition log (e : Event) : M unit :=
  λ w, MkOutcome (Ok tt) w [(e, fs w)].

(** ** Effects *)

(** [p.exists()] *)
Definition path_exists (p : PurePath) : M bool :=
  m ← get_fs; ret (bool_decide (is_Some (m !! p))).

Definition parent_of (p : PurePath) : PurePath :=
  MkPath (root p) (removelast (parts p)).

(** [open(p, "w")]: the file is created or truncated; the directory that
    holds it must exist. *)
Definition open_w (p : PurePath) : M unit :=
  log (EvOpen p) ;;
  m ← get_fs;
  match m !! parent_of p, m !! p with
  | Some Dir, Some Dir => raise (IsADirectoryError (str p))
  | Some Dir, _ => set_fs <[p := File ""]>
  | _, _ => raise (FileNotFoundError (str p))
  end.

(** [f.write(data)] on the file opened at [p]: the data is appended. *)
Definition write (p : PurePath) (data : string) : M unit :=
  log (EvWrite p data) ;;
  m ← get_fs;
  set_fs <[p := File (match m !! p with
                      | Some (File c) => c +:+ data
                      | _ => data
                      end)]>.

(** [shutil.copy2(src, dst)] for a destination that is not a directory. *)
Definition copy2 (src : string) (dst : PurePath) : M unit :=
  log (EvCopy2 src dst) ;;
  m ← get_fs;
  match m !! Path [src] with
  | Some (File c) =>
      match m !! parent_of dst with
      | Some Dir => set_fs <[dst := File c]>
      | _ => raise (FileNotFoundError (str dst))
      end
  | Some Dir => raise (IsADirectoryError src)
  | None => raise (FileNotFoundError src)
  end.

(** A path is under a directory when it is the directory or below it. *)
Definition under (d p : PurePath) : Prop :=
  root p = root d ∧ parts d `prefix_of` parts p.

Global Instance under_dec d p : Decision (under d p).
Proof. unfold under. apply _. Defined.

(** [shutil.rmtree(dir)] *)
Definition rmtree (m : gmap PurePath Node) (dir : string) : gmap PurePath Node :=
  filter (λ kv, ¬ under (Path [dir]) kv.1) m.

(** [tempfile.mkdtemp]: the first candidate name that is not taken. *)
Fixpoint fresh_dir (m : gmap PurePath Node) (base pre suf : string)
    (names : list string) : option (string * list string) :=
  match names with
  | [] => None
  | n :: rest =>
      let d := str (Path [base; pre +:+ n +:+ suf]) in
      match m !! Path [d] with
      | None => Some (d, rest)
      | Some _ => fresh_dir m base pre suf rest
      end
  end.

Definition mkdtemp (pre suf : string) : M string :=
  λ w, match fresh_dir (fs w) (gettempdir w) pre suf (tmpnames w) with
       | None =>
           MkOutcome (Raise FileExistsError) (MkWorld (fs w) (gettempdir w) []) []
       | Some (d, rest) =>
           MkOutcome (Ok d) (MkWorld (<[Path [d] := Dir]> (fs w)) (gettempdir w) rest)
             [(EvMkdtemp d, fs w)]
       end.

Definition cleanup (dir : string) : M unit :=
  log (EvCleanup dir) ;; set_fs (λ m, rmtree m dir).

(** [with tempfile.TemporaryDirectory(prefix=pre, suffix=suf) as d: body d]:
    the directory is removed when the block is left, by its end or by an
    exception. *)
Definition with_TemporaryDirectory {A} (pre suf : string) (body : string → M A) : M A :=
  λ w, let o1 := mkdtemp pre suf w in
       match result o1 with
       | Raise e => MkOutcome (Raise e) (final o1) (events o1)
       | Ok d =>
           let o2 := body d (final o1) in
           let o3 := cleanup d (final o2) in
           MkOutcome (result o2) (final o3) (events o1 ++ events o2 ++ events o3)
       end.

(** ** The program: [cli.py] *)

Section Cli.

Variable P : Platform.

(** What rendering the markup of [text] gives: a text that passes
    [Markup.safe] renders; for any other text the renderer decides. *)
Definition print_result (text : string) : Exn + unit :=
  if Markup.safe text then inr tt else rich_render P text.

(** [rich.print(text)]: the call is logged with its argument, and raises
    when the markup does not render. *)
Definition rich_print (text : string) : M unit :=
  log (EvPrint text) ;; lift (print_result text).

Definition call_pack_model (name workspace : string) : M string :=
  log (EvPackModel name workspace) ;;
  m ← get_fs; lift (pack_model P name workspace m).

Definition call_get_requirements (python : option string) : M string :=
  log (EvGetRequirements python) ;;
  m ← get_fs; lift (get_requirements P python m).

Definition call_build (args : BuildArgs) : M Bento :=
  log (EvBuild args) ;;
  m ← get_fs; lift (bentoml_build P args m).

Definition call_push (bento : Bento) : M unit :=
  log (EvPush bento) ;;
  m ← get_fs; lift (bentoml_push P bento m).

Definition comfy_fingerprints : list string :=
  ["comfy"; "comfy_execution"; "comfy_extras"].

Definition not_a_workspace (workspace : string) : string :=
  Repr.repr workspace
  +:+ " does not look like a ComfyUI workspace. Please give a correct path.".

Definition _check_comfyui_workspace (workspace : string) : M unit :=
  for_each comfy_fingerprints (λ fingerprint,
    found ← path_exists (Path [workspace; fingerprint]);
    if found : bool then ret tt
    else raise (InvalidArgument (not_a_workspace workspace))).

Definition packed_message (workspace tag : string) : string :=
  "✅ [green]Successfully packed ComfyUI workspace " +:+ Repr.repr workspace
  +:+ " to BentoML model " +:+ tag +:+ "[/]".

Definition pack_hint : string :=
  "[blue]Next step, build a bento with the workspace:" +:+ Str.newline
  +:+ "    $ bentoml comfyui build --model {tag}" +:+ Str.newline
  +:+ "Or, build and push to the cloud in one go:" +:+ Str.newline
  +:+ "    $ bentoml comfyui build --push --model {tag}[/]".

(** [if version: name = f"{name}:{version}"]: [None] and the empty text
    are both false. *)
Definition model_name (name : string) (version : option string) : string :=
  match version with
  | Some (String _ _ as v) => name +:+ ":" +:+ v
  | _ => name
  end.

Definition pack (name : string) (version : option string) (workspace : string)
    : M unit :=
  _check_comfyui_workspace workspace ;;
  let name := model_name name version in
  tag ← call_pack_model name workspace;
  rich_print (packed_message workspace tag) ;;
  rich_print pack_hint.

Definition default_system_packages : list string :=
  ["git"; "libglib2.0-0"; "libsm6"; "libxrender1"; "libxext6"; "ffmpeg";
   "libstdc++-12-dev"].

Definition built_message (tag workflow : string) : string :=
  "✅ [green]Successfully built Bento " +:+ tag +:+ " from ComfyUI workflow "
  +:+ Repr.repr workflow +:+ "[/]".

Definition next_steps (tag : string) : list string :=
  [ "[blue]Next steps:";
    Str.newline +:+ Str.newline +:+ "* Deploy to BentoCloud:" +:+ Str.newline
    +:+ "    $ bentoml deploy " +:+ tag +:+ " -n ${DEPLOYMENT_NAME}";
    Str.newline +:+ Str.newline
    +:+ "* Update an existing deployment on BentoCloud:" +:+ Str.newline
    +:+ "    $ bentoml deployment update --bento " +:+ tag
    +:+ " ${DEPLOYMENT_NAME}[/]" ].

Definition build_args (name : string) (version : option string)
    (temp_dir : string) (system_packages : list string) : BuildArgs :=
  {| arg_service := "service:ComfyUIService";
     arg_name := name;
     arg_version := version;
     arg_build_ctx := temp_dir;
     arg_docker_system_packages := default_system_packages ++ system_packages;
     arg_python_requirements_txt := "requirements.txt";
     arg_python_lock_packages := true;
     arg_include := ["service.py"; "workflow.json"; "requirements.txt"] |}.

(** The block under [with tempfile.TemporaryDirectory(...) as temp_dir]. *)
Definition build_in (name : string) (version : option string) (model : string)
    (python : option string) (system_packages extra_python_packages : list string)
    (workflow : string) (temp_dir : string) : M Bento :=
  let parent := Path [temp_dir] in
  rich_print "📂 [blue]Creating requirements.txt[/]" ;;
  (let f := joinpath parent "requirements.txt" in
   open_w f ;;
   requirements ← call_get_requirements python;
   write f requirements ;;
   for_each extra_python_packages (λ package,
     write f (Str.newline +:+ package))) ;;
  rich_print "📂 [blue]Creating service.py[/]" ;;
  (let f := joinpath parent "service.py" in
   open_w f ;;
   text ← lift (Format.format (service_template P)
                  [("name", name); ("model_tag", model)]);
   write f text) ;;
  rich_print "📂 [blue]Creating workflow.json[/]" ;;
  copy2 workflow (joinpath parent "workflow.json") ;;
  call_build (build_args name version temp_dir system_packages).

Definition build (name : string) (version : option string) (model : string)
    (python : option string) (system_packages extra_python_packages : list string)
    (push : bool) (workflow : string) : M unit :=
  bento ← with_TemporaryDirectory "bentoml-comfyui-" "-bento"
            (build_in name version model python system_packages
               extra_python_packages workflow);
  rich_print (built_message (bento_tag bento) workflow) ;;
  if push then
    call_push bento ;;
    rich_print (Str.concat (next_steps (bento_tag bento)))
  else ret tt.

End Cli.

(** ** A concrete platform and world, for running the commands *)

Module Demo.

Definition platform : Platform :=
  {| pack_model := λ name _ _, inr (name +:+ ":gen");
     get_requirements := λ _ _, inr "torch==2.0";
     service_template := "svc({name}, {model_tag})";
     bentoml_build := λ args _, inr (MkBento (arg_name args +:+ ":v1"));
     bentoml_push := λ _ _, inr tt;
     rich_render := λ _, inl (MarkupError "closing tag does not match an open tag") |}.

(** The same platform with a build routine that raises. *)
Definition failing_platform : Platform :=
  {| pack_model := pack_model platform;
     get_requirements := get_requirements platform;
     service_template := service_template platform;
     bentoml_build := λ _ _, inl (PlatformError "build failed");
     bentoml_push := bentoml_push platform;
     rich_render := rich_render platform |}.

Definition files : gmap PurePath Node :=
  <[Path ["ws"; "comfy"] := Dir]>
    (<[Path ["ws"; "comfy_execution"] := Dir]>
       (<[Path ["ws"; "comfy_extras"] := Dir]>
          (<[Path ["wf.json"] := File "{}"]> ∅))).

Definition world : World := MkWorld files "/tmp" ["abc"; "def"].

(** A build with one extra system package, two extra Python packages
    and [--push]. *)
Definition run (P : Platform) : Outcome unit :=
  build P "svc" None "comfyui" None ["curl"] ["numpy"; "pillow"] true
    "wf.json" world.

(** A directory [ws] where only [comfy_extras] is missing. *)
Definition partial_world : World :=
  MkWorld (<[Path ["ws"; "comfy"] := Dir]>
             (<[Path ["ws"; "comfy_execution"] := Dir]> ∅)) "/tmp" ["abc"].

End Demo.

(** ** Vocabulary of the properties *)

(** The calls of the packer in a run: name and workspace. *)
Definition pack_calls {A} (o : Outcome A) : list (string * string) :=
  omap (λ x, match x.1 with
             | EvPackModel name workspace => Some (name, workspace)
             | _ => None
             end) (events o).

(** The bentos handed to the push routine in a run. *)
Definition pushes {A} (o : Outcome A) : list Bento :=
  omap (λ x, match x.1 with EvPush bento => Some bento | _ => None end) (events o).

(** The texts handed to [rich.print] in a run, in order. *)
Definition printed {A} (o : Outcome A) : list string :=
  omap (λ x, match x.1 with EvPrint text => Some text | _ => None end) (events o).

(** The entry [leaf] of the directory [d]. *)
Definition child (d : PurePath) (leaf : string) : PurePath :=
  MkPath (root d) (parts d ++ [leaf]).

(** Reasoning about runs.

    [satisfies m w post]: the run of [m] in [w] ends with a result, a world
    and a log that [post] accepts.  The rules below follow the structure of
    a command, so that a property of a run is proved along the program
    text. *)

Definition satisfies {A} (m : M A) (w : World)
    (post : Res A → World → list (Event * gmap PurePath Node) → Prop) : Prop :=
  post (result (m w)) (final (m w)) (events (m w)).

(** [logs Q m w R]: every entry of the log of the run satisfies [Q], and the
    result and the world left satisfy [R]. *)
Definition logs {A} (Q : Event → gmap PurePath Node → Prop) (m : M A) (w : World)
    (R : Res A → World → Prop) : Prop :=
  satisfies m w (λ r w' evs, Forall (λ x, Q x.1 x.2) evs ∧ R r w').

Definition creating_texts : list string :=
  ["📂 [blue]Creating requirements.txt[/]"; "📂 [blue]Creating service.py[/]";
   "📂 [blue]Creating workflow.json[/]"].

(** The text of the requirements file: the base requirements, then one
    line per extra package. *)
Definition requirements_text (base : string) (extras : list string) : string :=
  base +:+ Str.concat (map (λ package, Str.newline +:+ package) extras).

(** The effects that work in the temporary directory: the files written,
    the workflow copied, the requirements queried, the build routine run. *)
Definition uses_build_dir (e : Event) : Prop :=
  match e with
  | EvOpen _ | EvWrite _ _ | EvCopy2 _ _ | EvGetRequirements _ | EvBuild _ => True
  | _ => False
  end.

Section Block.

Variables (P : Platform) (name : string) (version : option string)
(model : string) (python : option string)
(system_packages extra_python_packages : list string)
(workflow : string).

(** What the build routine finds in its build context when it is called,
  [init] being the file system in which the block started. *)
Definition build_inputs_ready (init : gmap PurePath Node) (args : BuildArgs)
  (snap : gmap PurePath Node) : Prop :=
let ctx := Path [arg_build_ctx args] in
(∃ base,
   get_requirements P python (<[joinpath ctx "requirements.txt" := File ""]> init)
   = inr base
   ∧ snap !! joinpath ctx "requirements.txt"
     = Some (File (requirements_text base extra_python_packages)))
∧ (∃ text,
     Format.format (service_template P) [("name", name); ("model_tag", model)]
     = inr text
     ∧ snap !! joinpath ctx "service.py" = Some (File text))
∧ (∃ c, snap !! joinpath ctx "workflow.json" = Some (File c)).

(** What an entry of the log of the block can be. *)
Definition in_block (init : gmap PurePath Node) (temp_dir : string) (e : Event)
  (snap : gmap PurePath Node) : Prop :=
snap !! Path [temp_dir] = Some Dir
∧ match e with
  | EvPrint text => In text creating_texts
  | EvOpen p | EvWrite p _ =>
      In p [joinpath (Path [temp_dir]) "requirements.txt";
            joinpath (Path [temp_dir]) "service.py"]
  | EvGetRequirements py => py = python
  | EvCopy2 src dst =>
      src = workflow ∧ dst = joinpath (Path [temp_dir]) "workflow.json"
  | EvBuild args =>
      args = build_args name version temp_dir system_packages
      ∧ build_inputs_ready init args snap
  | EvPackModel _ _ | EvPush _ | EvMkdtemp _ | EvCleanup _ => False
  end.

(** An entry of the block that is not the call of the build routine. *)
Definition quiet (init : gmap PurePath Node) (temp_dir : string) (e : Event)
  (snap : gmap PurePath Node) : Prop :=
in_block init temp_dir e snap ∧ ∀ args, e ≠ EvBuild args.

(** What a run of the block guarantees: its entries are those of the
  block, its result is the result of the build routine whenever the
  routine was called, and the routine was called whenever the block
  returns. *)
Definition block_post (init : gmap PurePath Node) (temp_dir : string)
  (r : Res Bento) (evs : list (Event * gmap PurePath Node)) : Prop :=
Forall (λ x, in_block init temp_dir x.1 x.2) evs
∧ (∀ args snap, In (EvBuild args, snap) evs →
     r = match bentoml_build P args snap with
         | inl e => Raise e
         | inr bento => Ok bento
         end)
∧ (∀ bento, r = Ok bento → ∃ args snap, In (EvBuild args, snap) evs).

End Block.

(** What [build] does once the block under the temporary directory is
    left with result [r], in the file system [m] that the removal of the
    directory leaves: the success message, which may not render, then with
    [--push] the push and the deployment hint. *)
Definition after_events (P : Platform) (push : bool) (workflow : string)
    (m : gmap PurePath Node) (r : Res Bento) : list (Event * gmap PurePath Node) :=
  match r with
  | Raise _ => []
  | Ok bento =>
      (EvPrint (built_message (bento_tag bento) workflow), m)
      :: match print_result P (built_message (bento_tag bento) workflow) with
         | inl _ => []
         | inr _ =>
             if push then
               (EvPush bento, m)
               :: match bentoml_push P bento m with
                  | inl _ => []
                  | inr _ =>
                      [(EvPrint (Str.concat (next_steps (bento_tag bento))), m)]
                  end
             else []
         end
  end.

Definition after_result (P : Platform) (push : bool) (workflow : string)
    (m : gmap PurePath Node) (r : Res Bento) : Res unit :=
  match r with
  | Raise e => Raise e
  | Ok bento =>
      match print_result P (built_message (bento_tag bento) workflow) with
      | inl e => Raise e
      | inr _ =>
          if push then
            match bentoml_push P bento m with
            | inl e => Raise e
            | inr _ =>
                match print_result P (Str.concat (next_steps (bento_tag bento))) with
                | inl e => Raise e
                | inr _ => Ok tt
                end
            end
          else Ok tt
      end
  end.

(** ** Vocabulary of the further properties *)

(** The effects of a run, in order, without the file system snapshots. *)
Definition kinds {A} (o : Outcome A) : list Event := map fst (events o).

(** A file system in which every entry but a root lies in a directory. *)
Definition well_formed (m : gmap PurePath Node) : Prop :=
  ∀ p x, m !! p = Some x → parts p ≠ [] → m !! parent_of p = Some Dir.

(** The writes to [requirements.txt]: the base requirements, then one
    write per extra package. *)
Definition requirements_writes (f : PurePath) (base : string)
    (extras : list string) : list Event :=
  EvWrite f base :: map (λ package, EvWrite f (Str.newline +:+ package)) extras.

(** The run of the block of [build] read off the program text: for the file
    system [m0] in which the block starts, the result, the effects in
    order and the file system left. *)
Definition block_summary (P : Platform) (name : string) (version : option string)
    (model : string) (python : option string)
    (system_packages extra_python_packages : list string) (workflow : string)
    (temp_dir : string) (m0 : gmap PurePath Node)
    : Res Bento * list Event * gmap PurePath Node :=
  let parent := Path [temp_dir] in
  let req := child parent "requirements.txt" in
  let svc := child parent "service.py" in
  let wf := child parent "workflow.json" in
  let k1 := [EvPrint "📂 [blue]Creating requirements.txt[/]"; EvOpen req] in
  match m0 !! req with
  | Some Dir => (Raise (IsADirectoryError (Pathlib.str req)), k1, m0)
  | _ =>
      let m1 := <[req := File ""]> m0 in
      let k2 := k1 ++ [EvGetRequirements python] in
      match get_requirements P python m1 with
      | inl e => (Raise e, k2, m1)
      | inr base =>
          let m2 :=
            <[req := File (requirements_text base extra_python_packages)]> m0 in
          let k3 :=
            k2 ++ requirements_writes req base extra_python_packages
               ++ [EvPrint "📂 [blue]Creating service.py[/]"; EvOpen svc] in
          match m2 !! svc with
          | Some Dir => (Raise (IsADirectoryError (Pathlib.str svc)), k3, m2)
          | _ =>
              match Format.format (service_template P)
                      [("name", name); ("model_tag", model)] with
              | inl e => (Raise e, k3, <[svc := File ""]> m2)
              | inr text =>
                  let m3 := <[svc := File text]> m2 in
                  let k4 :=
                    k3 ++ [EvWrite svc text;
                           EvPrint "📂 [blue]Creating workflow.json[/]";
                           EvCopy2 workflow wf] in
                  match m3 !! Path [workflow] with
                  | None => (Raise (FileNotFoundError workflow), k4, m3)
                  | Some Dir => (Raise (IsADirectoryError workflow), k4, m3)
                  | Some (File c) =>
                      let m4 := <[wf := File c]> m3 in
                      let args :=
                        build_args name version temp_dir system_packages in
                      (match bentoml_build P args m4 with
                       | inl e => Raise e
                       | inr bento => Ok bento
                       end, k4 ++ [EvBuild args], m4)
                  end
              end
          end
      end
  end.

(** The same for the whole of [build], in the world [w]. *)
Definition build_summary (P : Platform) (name : string) (version : option string)
    (model : string) (python : option string)
    (system_packages extra_python_packages : list string) (push : bool)
    (workflow : string) (w : World)
    : Res unit * list Event * gmap PurePath Node :=
  match fresh_dir (fs w) (gettempdir w) "bentoml-comfyui-" "-bento" (tmpnames w) with
  | None => (Raise FileExistsError, [], fs w)
  | Some (d, _) =>
      match block_summary P name version model python system_packages
              extra_python_packages workflow d (<[Path [d] := Dir]> (fs w)) with
      | (r, ks, m) =>
          (after_result P push workflow (rmtree m d) r,
           EvMkdtemp d
           :: ks ++ EvCleanup d
                    :: map fst (after_events P push workflow (rmtree m d) r),
           rmtree m d)
      end
  end.

(** The files of the build context once the three files are in place. *)
Definition build_context (d : string) (m : gmap PurePath Node)
    (requirements text workflow_text : string) : gmap PurePath Node :=
  <[child (Path [d]) "workflow.json" := File workflow_text]>
    (<[child (Path [d]) "service.py" := File text]>
       (<[child (Path [d]) "requirements.txt" := File requirements]>
          (<[Path [d] := Dir]> m))).

(** An entry that is not the call of the build routine. *)
Definition not_build (e : Event) (snap : gmap PurePath Node) : Prop :=
  ∀ args, e ≠ EvBuild args.

(** Every call of the build routine in the log saw the file system that
    the run leaves. *)
Definition build_sees_final (w' : World)
    (evs : list (Event * gmap PurePath Node)) : Prop :=
  ∀ args snap, In (EvBuild args, snap) evs → snap = fs w'.

(** The effects of the block, and the effects that follow it. *)
Definition is_block_effect (e : Event) : Prop :=
  match e with
  | EvPrint text => In text creating_texts
  | EvOpen _ | EvWrite _ _ | EvGetRequirements _ | EvCopy2 _ _ | EvBuild _ => True
  | EvPackModel _ _ | EvPush _ | EvMkdtemp _ | EvCleanup _ => False
  end.

Definition is_report (e : Event) : Prop :=
  match e with
  | EvPrint _ | EvPush _ => True
  | _ => False
  end.

(** A well-formed world, and platforms that fail at one step. *)
Module Site.

Definition files : gmap PurePath Node :=
  <[Path ["/"] := Dir]>
    (<[Path ["/tmp"] := Dir]>
       (<[Path ["/wf.json"] := File "{}"]> ∅)).

Definition world : World := MkWorld files "/tmp" ["abc"; "def"].

(** The same with a directory whose name ends with an opening bracket: the
    paths of the workflow and of the workspace in it hold a closing tag. *)
Definition markup_files : gmap PurePath Node :=
  <[Path ["/w[/x]"; "comfy"] := Dir]>
    (<[Path ["/w[/x]"; "comfy_execution"] := Dir]>
       (<[Path ["/w[/x]"; "comfy_extras"] := Dir]>
          (<[Path ["/w[/x]"] := Dir]>
             (<[Path ["/w[/x].json"] := File "{}"]>
                (<[Path ["/w["] := Dir]> files))))).

Definition markup_world : World := MkWorld markup_files "/tmp" ["abc"; "def"].

Definition no_requirements : Platform :=
  {| pack_model := pack_model Demo.platform;
     get_requirements := λ _ _, inl (PlatformError "no interpreter");
     service_template := service_template Demo.platform;
     bentoml_build := bentoml_build Demo.platform;
     bentoml_push := bentoml_push Demo.platform;
     rich_render := rich_render Demo.platform |}.

Definition bad_template : Platform :=
  {| pack_model := pack_model Demo.platform;
     get_requirements := get_requirements Demo.platform;
     service_template := "svc({name}, {tag})";
     bentoml_build := bentoml_build Demo.platform;
     bentoml_push := bentoml_push Demo.platform;
     rich_render := rich_render Demo.platform |}.

Definition no_push : Platform :=
  {| pack_model := pack_model Demo.platform;
     get_requirements := get_requirements Demo.platform;
     service_template := service_template Demo.platform;
     bentoml_build := bentoml_build Demo.platform;
     bentoml_push := λ _ _, inl (PlatformError "not logged in");
     rich_render := rich_render Demo.platform |}.

Definition no_packer : Platform :=
  {| pack_model := λ _ _ _, inl (PlatformError "store is read-only");
     get_requirements := get_requirements Demo.platform;
     service_template := service_template Demo.platform;
     bentoml_build := bentoml_build Demo.platform;
     bentoml_push := bentoml_push Demo.platform;
     rich_render := rich_render Demo.platform |}.

Definition run (P : Platform) (push : bool) (workflow : string) : Outcome unit :=
  build P "svc" None "comfyui" None ["curl"] ["numpy"; "pillow"] push
    workflow world.

End Site.

(** * Properties *)

Example repr_plain : Repr.repr "ws" = "'ws'".
Proof. reflexivity. Qed.

Example path_join_dot :
  Pathlib.str (Pathlib.Path ["."; "comfy"]) = "comfy".
Proof. reflexivity. Qed.

Example path_join_norm :
  Pathlib.str (Pathlib.Path ["/srv//ui/./"; "comfy_extras"]) = "/srv/ui/comfy_extras".
Proof. reflexivity. Qed.

Example format_fields :
  Format.format "svc({name}, {{m: {model_tag}}})" [("name", "a"); ("model_tag", "b:1")]
  = inr "svc(a, {m: b:1})".
Proof. reflexivity. Qed.

Example markup_progress_line :
  Markup.safe "📂 [blue]Creating requirements.txt[/]" = true.
Proof. reflexivity. Qed.

Example markup_plain_path :
  Markup.safe (packed_message "/srv/ComfyUI" "comfyui:gen") = true.
Proof. vm_compute. reflexivity. Qed.

Example markup_closing_tag_in_path :
  Markup.safe (packed_message "w[/x]" "comfyui:gen") = false.
Proof. vm_compute. reflexivity. Qed.

Example markup_early_close_in_path :
  Markup.safe (built_message "svc:v1" "a[/]b.json") = false.
Proof. vm_compute. reflexivity. Qed.

Example format_missing :
  Format.format "{nam}" [("name", "a")] = inl (KeyError "nam").
Proof. reflexivity. Qed.

(** ** Strings *)

Lemma append_cons (c : ascii) (s t : string) :
  String c s +:+ t = String c (s +:+ t).
Proof. reflexivity. Qed.

Lemma append_assoc (a b c : string) : (a +:+ b) +:+ c = a +:+ (b +:+ c).
Proof.
  induction a as [|x a IH]; [done |].
  rewrite !append_cons. by rewrite IH.
Qed.

Lemma append_nil_r (a : string) : a +:+ "" = a.
Proof.
  induction a as [|x a IH]; [done |].
  rewrite append_cons. by rewrite IH.
Qed.

Lemma prefixb_spec (x s : string) :
  Str.prefixb x s = true ↔ ∃ post, s = x +:+ post.
Proof.
  revert s. induction x as [|a x IH]; intros s; simpl.
  - split; [intros _; by exists s | done].
  - destruct s as [|b s].
    + split; [done | intros [post Hp]; discriminate].
    + rewrite andb_true_iff, Ascii.eqb_eq, IH. split.
      * intros [-> [post ->]]. by exists post.
      * intros [post Hp]. rewrite append_cons in Hp.
        injection Hp as -> ->. eauto.
Qed.

Lemma substringb_spec (x s : string) :
  Str.substringb x s = true ↔ Str.Substring x s.
Proof.
  induction s as [|c s IH]; simpl.
  - rewrite orb_false_r, prefixb_spec. split.
    + intros [post Hp]. by exists "", post.
    + intros [[|? pre] [post Hp]]; [by exists post | discriminate].
  - rewrite orb_true_iff, IH, prefixb_spec. split.
    + intros [[post Hp] | [pre [post Hp]]].
      * by exists "", post.
      * exists (String c pre), post. rewrite append_cons. by rewrite Hp.
    + intros [[|a pre] [post Hp]].
      * left. by exists post.
      * right. exists pre, post. rewrite append_cons in Hp. congruence.
Qed.

Lemma Substring_app_r (x s t : string) :
  Str.Substring x t → Str.Substring x (s +:+ t).
Proof.
  intros [pre [post ->]]. exists (s +:+ pre), post.
  by rewrite !append_assoc.
Qed.

(** ** The workspace validator *)

Lemma outcome_eta {A} (o : Outcome A) :
  MkOutcome (result o) (final o) (events o) = o.
Proof. by destruct o. Qed.

Lemma check_step (workspace fp : string) (rest : list string) (w : World) :
  for_each (fp :: rest) (λ fingerprint,
    found ← path_exists (Path [workspace; fingerprint]);
    if found : bool then ret tt
    else raise (InvalidArgument (not_a_workspace workspace))) w
  = if bool_decide (is_Some (fs w !! Path [workspace; fp]))
    then for_each rest (λ fingerprint,
           found ← path_exists (Path [workspace; fingerprint]);
           if found : bool then ret tt
           else raise (InvalidArgument (not_a_workspace workspace))) w
    else MkOutcome (Raise (InvalidArgument (not_a_workspace workspace))) w [].
Proof.
  cbv [for_each mbind M_bind bind path_exists get_fs ret raise result final events].
  fold (@for_each string). destruct (bool_decide _).
  - cbn [app]. apply outcome_eta.
  - reflexivity.
Qed.

Lemma check_unfold (workspace : string) (w : World) :
  _check_comfyui_workspace workspace w
  = if bool_decide (is_Some (fs w !! Path [workspace; "comfy"])) then
      if bool_decide (is_Some (fs w !! Path [workspace; "comfy_execution"])) then
        if bool_decide (is_Some (fs w !! Path [workspace; "comfy_extras"])) then
          MkOutcome (Ok tt) w []
        else MkOutcome (Raise (InvalidArgument (not_a_workspace workspace))) w []
      else MkOutcome (Raise (InvalidArgument (not_a_workspace workspace))) w []
    else MkOutcome (Raise (InvalidArgument (not_a_workspace workspace))) w [].
Proof.
  unfold _check_comfyui_workspace, comfy_fingerprints.
  rewrite !check_step. reflexivity.
Qed.

Lemma check_all_present (workspace : string) (w : World) :
  (∀ fp, In fp comfy_fingerprints → is_Some (fs w !! Path [workspace; fp])) →
  _check_comfyui_workspace workspace w = MkOutcome (Ok tt) w [].
Proof.
  intros Hall. rewrite check_unfold.
  rewrite !bool_decide_eq_true_2; [done | | |];
    apply Hall; unfold comfy_fingerprints; cbn [In]; auto.
Qed.


Lemma check_outcome (workspace : string) (w : World) :
  _check_comfyui_workspace workspace w = MkOutcome (Ok tt) w []
  ∨ _check_comfyui_workspace workspace w
    = MkOutcome (Raise (InvalidArgument (not_a_workspace workspace))) w [].
Proof. rewrite check_unfold. repeat case_bool_decide; auto. Qed.



(** C2, as amended.  Whenever the validator fails, the error is the
    invalid-argument error whose message is the [repr] of the workspace
    path that was given followed by a fixed text: it names the workspace
    directory, whichever marker is missing. *)
Theorem check_message_names_workspace (workspace : string) (w : World) (e : Exn) :
  result (_check_comfyui_workspace workspace w) = Raise e →
  e = InvalidArgument (not_a_workspace workspace)
  ∧ Str.Substring (Repr.repr workspace) (not_a_workspace workspace)
  ∧ Str.prefixb (Repr.repr workspace) (not_a_workspace workspace) = true.
Proof.
  intros Hr. destruct (check_outcome workspace w) as [H|H];
    rewrite H in Hr; simpl in Hr; [discriminate |].
  injection Hr as <-. split; [done |]. unfold not_a_workspace. split.
  - by exists "", " does not look like a ComfyUI workspace. Please give a correct path.".
  - apply prefixb_spec. eauto.
Qed.

Lemma check_message_names_workspace_witness :
  result (_check_comfyui_workspace "ws" Demo.partial_world)
  = Raise (InvalidArgument
      "'ws' does not look like a ComfyUI workspace. Please give a correct path.")
  ∧ Str.Substring "'ws'"
      "'ws' does not look like a ComfyUI workspace. Please give a correct path.".
Proof.
  assert (Hr : result (_check_comfyui_workspace "ws" Demo.partial_world)
               = Raise (InvalidArgument (not_a_workspace "ws")))
    by (vm_compute; reflexivity).
  destruct (check_message_names_workspace "ws" Demo.partial_world _ Hr)
    as [_ [Hsub _]].
  split; [exact Hr | exact Hsub].
Defined.

(** C2, as stated, fails: in a directory [ws] where only [comfy_extras] is
    missing the validator fails, and its message holds neither the missing
    marker subpath [ws/comfy_extras] nor the marker name. *)
Lemma check_message_counterexample :
  ∃ msg,
    result (_check_comfyui_workspace "ws" Demo.partial_world)
    = Raise (InvalidArgument msg)
    ∧ (∀ fp, In fp comfy_fingerprints →
         fs Demo.partial_world !! Path ["ws"; fp] = None → fp = "comfy_extras")
    ∧ Pathlib.str (Path ["ws"; "comfy_extras"]) = "ws/comfy_extras"
    ∧ ¬ Str.Substring "ws/comfy_extras" msg
    ∧ ¬ Str.Substring "comfy_extras" msg.
Proof.
  exists (not_a_workspace "ws"). split; [by vm_compute |]. split.
  - intros fp [<-|[<-|[<-|[]]]]; vm_compute; intros H; try done.
  - split; [by vm_compute |].
    split; intros H%substringb_spec; vm_compute in H; discriminate.
Qed.

(** ** [pack] *)

Lemma rich_print_run (P : Platform) (text : string) (w : World) :
  rich_print P text w =
  MkOutcome (match print_result P text with
             | inl e => Raise e
             | inr _ => Ok tt
             end) w [(EvPrint text, fs w)].
Proof.
  unfold rich_print, log, lift, ret, raise, mbind, M_bind, bind.
  cbn [result final events]. by destruct (print_result P text) as [e|[]].
Qed.

Lemma print_result_safe (P : Platform) (text : string) :
  Markup.safe text = true → print_result P text = inr tt.
Proof. unfold print_result. by intros ->. Qed.

Lemma pack_hint_safe : Markup.safe pack_hint = true.
Proof. vm_compute. reflexivity. Qed.

Lemma creating_requirements_print (P : Platform) :
  rich_print P "📂 [blue]Creating requirements.txt[/]"
  = log (EvPrint "📂 [blue]Creating requirements.txt[/]").
Proof. reflexivity. Qed.

Lemma creating_service_print (P : Platform) :
  rich_print P "📂 [blue]Creating service.py[/]"
  = log (EvPrint "📂 [blue]Creating service.py[/]").
Proof. reflexivity. Qed.

Lemma creating_workflow_print (P : Platform) :
  rich_print P "📂 [blue]Creating workflow.json[/]"
  = log (EvPrint "📂 [blue]Creating workflow.json[/]").
Proof. reflexivity. Qed.

Lemma pack_run (P : Platform) (name : string) (version : option string)
    (workspace : string) (w : World) :
  pack P name version workspace w =
  match result (_check_comfyui_workspace workspace w) with
  | Raise e => MkOutcome (Raise e) w []
  | Ok _ =>
      let n := model_name name version in
      match pack_model P n workspace (fs w) with
      | inl e => MkOutcome (Raise e) w [(EvPackModel n workspace, fs w)]
      | inr tag =>
          match print_result P (packed_message workspace tag) with
          | inl e =>
              MkOutcome (Raise e) w
                [(EvPackModel n workspace, fs w);
                 (EvPrint (packed_message workspace tag), fs w)]
          | inr _ =>
              MkOutcome (Ok tt) w
                [(EvPackModel n workspace, fs w);
                 (EvPrint (packed_message workspace tag), fs w);
                 (EvPrint pack_hint, fs w)]
          end
      end
  end.
Proof.
  unfold pack, mbind, M_bind, bind.
  destruct (check_outcome workspace w) as [H|H]; rewrite H;
    cbn [result final events app]; [| done].
  unfold call_pack_model, log, get_fs, lift, ret, raise, mbind, M_bind, bind.
  cbn [result final events app].
  destruct (pack_model P _ workspace (fs w)) as [e|tag];
    cbn [result final events app]; [done |].
  rewrite !rich_print_run. cbn [result final events app].
  destruct (print_result P (packed_message workspace tag)) as [e|[]];
    cbn [result final events app]; [done |].
  by rewrite (print_result_safe _ _ pack_hint_safe).
Qed.

(** C3, as amended.  On a valid workspace [pack] calls the packer once,
    with the workspace and with [name:version] when a version that is not
    the empty text is supplied, and with [name] alone when the version is
    omitted or empty; the tag in the confirmation text that [pack] hands
    to [rich.print] is the one the packer returns for that name. *)
Theorem pack_name_passed (P : Platform) (name : string) (version : option string)
    (workspace : string) (w : World) :
  (∀ fp, In fp comfy_fingerprints → is_Some (fs w !! Path [workspace; fp])) →
  let o := pack P name version workspace w in
  ∃ n,
    pack_calls o = [(n, workspace)]
    ∧ (∀ v, version = Some v → v ≠ "" → n = name +:+ ":" +:+ v)
    ∧ (version = None ∨ version = Some "" → n = name)
    ∧ (∀ tag, pack_model P n workspace (fs w) = inr tag →
         In (packed_message workspace tag) (printed o)).
Proof.
  intros Hall o. subst o. rewrite pack_run, (check_all_present _ _ Hall).
  cbv zeta. exists (model_name name version). split; [| split; [| split]].
  - destruct (pack_model P _ workspace (fs w)) as [e|tag]; [reflexivity |].
    destruct (print_result P _) as [e|[]]; reflexivity.
  - intros v -> Hv. destruct v; [done | reflexivity].
  - intros [-> | ->]; reflexivity.
  - intros tag ->.
    destruct (print_result P (packed_message workspace tag)) as [e|[]];
      left; reflexivity.
Qed.

Lemma pack_name_passed_witness :
  pack_calls (pack Demo.platform "comfyui" (Some "1.0") "ws" Demo.world)
  = [("comfyui:1.0", "ws")]
  ∧ pack_calls (pack Demo.platform "comfyui" None "ws" Demo.world)
    = [("comfyui", "ws")].
Proof.
  assert (Hall : ∀ fp, In fp comfy_fingerprints →
                   is_Some (fs Demo.world !! Path ["ws"; fp])).
  { intros fp [<-|[<-|[<-|[]]]]; vm_compute; eauto. }
  split.
  - destruct (pack_name_passed Demo.platform "comfyui" (Some "1.0") "ws"
                Demo.world Hall) as [n [Hcalls [Hv _]]].
    rewrite Hcalls. rewrite (Hv "1.0" eq_refl); [reflexivity | discriminate].
  - destruct (pack_name_passed Demo.platform "comfyui" None "ws"
                Demo.world Hall) as [n [Hcalls [_ [Hn _]]]].
    rewrite Hcalls. rewrite (Hn (or_introl eq_refl)). reflexivity.
Defined.

(** C3, as stated, fails: with [--version] supplied as the empty text on a
    valid workspace the packer is called with [comfyui], not with
    [comfyui:]. *)
Lemma pack_name_counterexample :
  let o := pack Demo.platform "comfyui" (Some "") "ws" Demo.world in
  (∀ fp, In fp comfy_fingerprints → is_Some (fs Demo.world !! Path ["ws"; fp]))
  ∧ pack_calls o = [("comfyui", "ws")]
  ∧ ¬ In ("comfyui" +:+ ":" +:+ "", "ws") (pack_calls o).
Proof.
  split; [| split].
  - intros fp [<-|[<-|[<-|[]]]]; vm_compute; eauto.
  - vm_compute. reflexivity.
  - vm_compute. intros [H|[]]. discriminate.
Qed.

(** C8.  After a successful packing [pack] has printed two texts: the
    confirmation line, which holds the tag the packer returned, and the
    hint, which is one fixed text for every tag and holds the characters
    [{tag}] (once per suggested command). *)
Theorem pack_hint_is_literal (P : Platform) (name : string)
    (version : option string) (workspace : string) (w : World) :
  let o := pack P name version workspace w in
  result o = Ok tt →
  ∃ tag,
    pack_model P (model_name name version) workspace (fs w) = inr tag
    ∧ printed o = [packed_message workspace tag; pack_hint]
    ∧ Str.Substring tag (packed_message workspace tag)
    ∧ Str.Substring "{tag}" pack_hint
    ∧ Str.Substring "--model {tag}" pack_hint
    ∧ Str.Substring "--push --model {tag}[/]" pack_hint.
Proof.
  intros o. subst o. rewrite pack_run.
  destruct (result (_check_comfyui_workspace workspace w)); [| discriminate].
  cbv zeta.
  destruct (pack_model P _ workspace (fs w)) as [e|tag]; [discriminate |].
  destruct (print_result P (packed_message workspace tag)) as [e|[]];
    [discriminate |].
  intros _. exists tag. split; [done |]. split; [done |]. split.
  - unfold packed_message.
    exists ("✅ [green]Successfully packed ComfyUI workspace "
            +:+ Repr.repr workspace +:+ " to BentoML model "), "[/]".
    by rewrite !append_assoc.
  - repeat split; apply substringb_spec; vm_compute; reflexivity.
Qed.

Lemma pack_hint_is_literal_witness :
  ∃ tag,
    printed (pack Demo.platform "comfyui" (Some "1.0") "ws" Demo.world)
    = [packed_message "ws" tag; pack_hint]
    ∧ tag = "comfyui:1.0:gen"
    ∧ Str.Substring "{tag}" pack_hint.
Proof.
  destruct (pack_hint_is_literal Demo.platform "comfyui" (Some "1.0") "ws"
              Demo.world eq_refl) as [tag [Htag [Hpr [_ [Hsub _]]]]].
  exists tag. split; [exact Hpr |]. split; [| exact Hsub].
  vm_compute in Htag. congruence.
Defined.

(** C9.  A version supplied as the empty text is treated as an omitted
    one: [pack] runs exactly as it does without [--version], and on a valid
    workspace the packer is called with [name] itself, nothing appended. *)
Theorem pack_empty_version (P : Platform) (name workspace : string) (w : World) :
  pack P name (Some "") workspace w = pack P name None workspace w
  ∧ ((∀ fp, In fp comfy_fingerprints → is_Some (fs w !! Path [workspace; fp])) →
     pack_calls (pack P name (Some "") workspace w) = [(name, workspace)]).
Proof.
  split.
  - rewrite !pack_run. reflexivity.
  - intros Hall. rewrite pack_run, (check_all_present _ _ Hall). cbv zeta.
    unfold model_name.
    destruct (pack_model P name workspace (fs w)) as [e|tag]; [reflexivity |].
    destruct (print_result P _) as [e|[]]; reflexivity.
Qed.

Lemma pack_empty_version_witness :
  pack_calls (pack Demo.platform "comfyui" (Some "") "ws" Demo.world)
  = [("comfyui", "ws")].
Proof.
  apply (pack_empty_version Demo.platform "comfyui" "ws" Demo.world).
  intros fp [<-|[<-|[<-|[]]]]; vm_compute; eauto.
Defined.

(** ** Paths below a directory *)

Lemma joinpath_requirements (d : PurePath) :
  joinpath d "requirements.txt" = child d "requirements.txt".
Proof. reflexivity. Qed.

Lemma joinpath_service (d : PurePath) :
  joinpath d "service.py" = child d "service.py".
Proof. reflexivity. Qed.

Lemma joinpath_workflow (d : PurePath) :
  joinpath d "workflow.json" = child d "workflow.json".
Proof. reflexivity. Qed.

Lemma child_ne_dir (d : PurePath) (leaf : string) : child d leaf ≠ d.
Proof.
  destruct d as [r l]. unfold child. simpl. intros H. injection H as H.
  apply (f_equal length) in H. rewrite length_app in H. simpl in H. lia.
Qed.

Lemma child_inj (d : PurePath) (a b : string) : child d a = child d b → a = b.
Proof.
  unfold child. intros H. injection H as H.
  apply app_inv_head in H. congruence.
Qed.

Lemma parent_of_child (d : PurePath) (leaf : string) : parent_of (child d leaf) = d.
Proof.
  destruct d as [r l]. unfold parent_of, child. simpl.
  by rewrite removelast_last.
Qed.

Lemma rmtree_lookup_under (m : gmap PurePath Node) (dir : string) (p : PurePath) :
  under (Path [dir]) p → rmtree m dir !! p = None.
Proof.
  intros Hu. unfold rmtree. apply map_lookup_filter_None. right.
  intros x _ Hn. by apply Hn.
Qed.

(** ** The shape of a [build] run *)

Lemma fresh_dir_fresh (m : gmap PurePath Node) (base pre suf : string)
    (names rest : list string) (d : string) :
  fresh_dir m base pre suf names = Some (d, rest) → m !! Path [d] = None.
Proof.
  induction names as [|n names IH]; simpl; [done |].
  destruct (m !! Path [Pathlib.str (Path [base; pre +:+ n +:+ suf])]) eqn:Hm.
  - exact IH.
  - intros H. injection H as <- <-. exact Hm.
Qed.

Lemma build_run (P : Platform) (name : string) (version : option string)
    (model : string) (python : option string)
    (system_packages extra_python_packages : list string) (push : bool)
    (workflow : string) (w : World) :
  build P name version model python system_packages extra_python_packages
    push workflow w =
  match fresh_dir (fs w) (gettempdir w) "bentoml-comfyui-" "-bento" (tmpnames w) with
  | None => MkOutcome (Raise FileExistsError) (MkWorld (fs w) (gettempdir w) []) []
  | Some (d, rest) =>
      let o := build_in P name version model python system_packages
                 extra_python_packages workflow d
                 (MkWorld (<[Path [d] := Dir]> (fs w)) (gettempdir w) rest) in
      let m := rmtree (fs (final o)) d in
      MkOutcome (after_result P push workflow m (result o)) (with_fs (final o) m)
        ((EvMkdtemp d, fs w)
         :: events o
            ++ (EvCleanup d, fs (final o))
               :: after_events P push workflow m (result o))
  end.
Proof.
  unfold build, with_TemporaryDirectory, mkdtemp, mbind, M_bind, bind.
  destruct (fresh_dir _ _ _ _ _) as [[d rest]|]; cbn [result final events];
    [| done].
  destruct (build_in P _ _ _ _ _ _ _ _ _) as [r w2 evs].
  unfold cleanup, call_push, log, get_fs, set_fs, lift, ret, raise,
    mbind, M_bind, bind, after_events, after_result.
  cbn [result final events app fs with_fs].
  destruct r as [bento|e]; cbn [result final events app fs with_fs];
    [| reflexivity].
  rewrite rich_print_run. cbn [result final events app fs with_fs].
  destruct (print_result P (built_message (bento_tag bento) workflow))
    as [e|[]]; cbn [result final events app fs with_fs];
    [rewrite <- ?app_assoc; reflexivity |].
  destruct push; cbn [result final events app fs with_fs].
  - destruct (bentoml_push P bento _) as [e|[]];
      cbn [result final events app fs with_fs];
      [rewrite ?app_nil_r, <- ?app_assoc; reflexivity |].
    rewrite rich_print_run. cbn [result final events app fs with_fs].
    destruct (print_result P (Str.concat (next_steps (bento_tag bento))))
      as [e|[]]; cbn [result final events app];
      rewrite ?app_nil_r, <- ?app_assoc; reflexivity.
  - rewrite ?app_nil_r, <- ?app_assoc. reflexivity.
Qed.

(** ** Rules for runs *)

Lemma satisfies_bind {A B} (m : M A) (k : A → M B) (w : World) post :
  satisfies m w (λ r w' evs,
    match r with
    | Ok a => satisfies (k a) w' (λ r2 w2 evs2, post r2 w2 (evs ++ evs2))
    | Raise e => post (Raise e) w' evs
    end) →
  satisfies (m ≫= k) w post.
Proof.
  unfold satisfies, mbind, M_bind, bind.
  by destruct (result (m w)).
Qed.

Lemma satisfies_call (e : Event) {A} (f : gmap PurePath Node → Exn + A)
    (w : World) post :
  match f (fs w) with
  | inl x => post (Raise x) w [(e, fs w)]
  | inr a => post (Ok a) w [(e, fs w)]
  end →
  satisfies (log e ;; m ← get_fs; lift (f m)) w post.
Proof.
  unfold satisfies, mbind, M_bind, bind, log, get_fs, lift. simpl.
  by destruct (f (fs w)).
Qed.

Lemma satisfies_open_w (p : PurePath) (w : World) post :
  fs w !! parent_of p = Some Dir →
  match fs w !! p with
  | Some Dir => post (Raise (IsADirectoryError (Pathlib.str p))) w [(EvOpen p, fs w)]
  | _ => post (Ok tt) (with_fs w (<[p := File ""]> (fs w))) [(EvOpen p, fs w)]
  end →
  satisfies (open_w p) w post.
Proof.
  intros Hparent.
  unfold satisfies, open_w, mbind, M_bind, bind, log, get_fs, set_fs. simpl.
  rewrite Hparent. by destruct (fs w !! p) as [[]|].
Qed.

Lemma satisfies_write (p : PurePath) (data : string) (w : World) post :
  post (Ok tt)
    (with_fs w (<[p := File (match fs w !! p with
                             | Some (File c) => c +:+ data
                             | _ => data
                             end)]> (fs w)))
    [(EvWrite p data, fs w)] →
  satisfies (write p data) w post.
Proof. done. Qed.

Lemma satisfies_copy2 (src : string) (dst : PurePath) (w : World) post :
  fs w !! parent_of dst = Some Dir →
  match fs w !! Path [src] with
  | Some (File c) =>
      post (Ok tt) (with_fs w (<[dst := File c]> (fs w))) [(EvCopy2 src dst, fs w)]
  | Some Dir => post (Raise (IsADirectoryError src)) w [(EvCopy2 src dst, fs w)]
  | None => post (Raise (FileNotFoundError src)) w [(EvCopy2 src dst, fs w)]
  end →
  satisfies (copy2 src dst) w post.
Proof.
  intros Hparent.
  unfold satisfies, copy2, mbind, M_bind, bind, log, get_fs, set_fs. simpl.
  destruct (fs w !! Path [src]) as [[c|]|]; [| done | done].
  by rewrite Hparent.
Qed.

Lemma with_fs_id (w : World) : with_fs w (fs w) = w.
Proof. by destruct w. Qed.

(** The loop over the extra packages appends one line per package to the
    open file, in the order of the list, and touches nothing else. *)
Lemma satisfies_write_lines (f : PurePath) (xs : list string) :
  ∀ (c : string) (w : World) post,
    fs w !! f = Some (File c) →
    (∀ evs,
       Forall (λ x, (∃ data, x.1 = EvWrite f data)
                    ∧ ∀ k, k ≠ f → x.2 !! k = fs w !! k) evs →
       post (Ok tt)
         (with_fs w (<[f := File (c +:+ Str.concat
                                    (map (λ x, Str.newline +:+ x) xs))]> (fs w)))
         evs) →
    satisfies (for_each xs (λ package, write f (Str.newline +:+ package))) w post.
Proof.
  induction xs as [|x xs IH]; intros c w post Hf Hpost.
  - specialize (Hpost [] (Forall_nil_2 _)). simpl in Hpost.
    rewrite append_nil_r, (insert_id _ _ _ Hf), with_fs_id in Hpost. exact Hpost.
  - simpl. apply satisfies_bind, satisfies_write. rewrite Hf.
    apply (IH (c +:+ Str.newline +:+ x)); simpl.
    + apply lookup_insert_eq.
    + intros evs Hevs.
      specialize (Hpost ((EvWrite f (Str.newline +:+ x), fs w) :: evs)).
      unfold with_fs in *. simpl in *.
      rewrite insert_insert_eq, append_assoc. apply Hpost.
      constructor; simpl; [eauto |].
      eapply Forall_impl; [exact Hevs |]. intros [e snap] [He Hk]. simpl in *.
      split; [exact He |]. intros k Hne. rewrite (Hk k Hne).
      by apply lookup_insert_ne.
Qed.

Section Logs.

Context {A : Type} (Q : Event → gmap PurePath Node → Prop).

Lemma logs_bind {B} (m : M A) (k : A → M B) (w : World) R :
  logs Q m w (λ r w', match r with
                      | Ok a => logs Q (k a) w' R
                      | Raise e => R (Raise e) w'
                      end) →
  logs Q (m ≫= k) w R.
Proof.
  unfold logs. intros H. apply satisfies_bind. revert H.
  unfold satisfies. destruct (result (m w)) as [a|e]; [| done].
  intros [H1 [H2 H3]]. split; [| done]. by apply Forall_app.
Qed.

Lemma logs_lift (r : Exn + A) (w : World) R :
  match r with inl e => R (Raise e) w | inr a => R (Ok a) w end →
  logs Q (lift r) w R.
Proof. destruct r; intros H; (split; [constructor | exact H]). Qed.

Lemma logs_call (e : Event) (f : gmap PurePath Node → Exn + A) (w : World) R :
  Q e (fs w) →
  match f (fs w) with inl x => R (Raise x) w | inr a => R (Ok a) w end →
  logs Q (log e ;; m ← get_fs; lift (f m)) w R.
Proof.
  intros HQ HR. apply satisfies_call.
  destruct (f (fs w)); (split; [by repeat constructor | exact HR]).
Qed.

End Logs.

Section LogsUnit.

Context (Q : Event → gmap PurePath Node → Prop).

Lemma logs_log (e : Event) (w : World) R :
  Q e (fs w) → R (Ok tt) w → logs Q (log e) w R.
Proof. intros HQ HR. split; [by repeat constructor | exact HR]. Qed.

Lemma logs_open_w (p : PurePath) (w : World) R :
  Q (EvOpen p) (fs w) →
  fs w !! parent_of p = Some Dir →
  match fs w !! p with
  | Some Dir => R (Raise (IsADirectoryError (Pathlib.str p))) w
  | _ => R (Ok tt) (with_fs w (<[p := File ""]> (fs w)))
  end →
  logs Q (open_w p) w R.
Proof.
  intros HQ Hparent HR. apply satisfies_open_w; [exact Hparent |].
  destruct (fs w !! p) as [[]|]; (split; [by repeat constructor | exact HR]).
Qed.

Lemma logs_write (p : PurePath) (data : string) (w : World) R :
  Q (EvWrite p data) (fs w) →
  R (Ok tt)
    (with_fs w (<[p := File (match fs w !! p with
                             | Some (File c) => c +:+ data
                             | _ => data
                             end)]> (fs w))) →
  logs Q (write p data) w R.
Proof. intros HQ HR. split; [by repeat constructor | exact HR]. Qed.

Lemma logs_copy2 (src : string) (dst : PurePath) (w : World) R :
  Q (EvCopy2 src dst) (fs w) →
  fs w !! parent_of dst = Some Dir →
  match fs w !! Path [src] with
  | Some (File c) => R (Ok tt) (with_fs w (<[dst := File c]> (fs w)))
  | Some Dir => R (Raise (IsADirectoryError src)) w
  | None => R (Raise (FileNotFoundError src)) w
  end →
  logs Q (copy2 src dst) w R.
Proof.
  intros HQ Hparent HR. apply satisfies_copy2; [exact Hparent |].
  destruct (fs w !! Path [src]) as [[]|];
    (split; [by repeat constructor | exact HR]).
Qed.

Lemma logs_write_lines (f : PurePath) (xs : list string) (c : string)
    (w : World) R :
  fs w !! f = Some (File c) →
  (∀ data snap, (∀ k, k ≠ f → snap !! k = fs w !! k) → Q (EvWrite f data) snap) →
  R (Ok tt)
    (with_fs w (<[f := File (c +:+ Str.concat
                               (map (λ x, Str.newline +:+ x) xs))]> (fs w))) →
  logs Q (for_each xs (λ package, write f (Str.newline +:+ package))) w R.
Proof.
  intros Hf HQ HR. apply (satisfies_write_lines f xs c); [exact Hf |].
  intros evs Hevs. split; [| exact HR].
  eapply Forall_impl; [exact Hevs |].
  intros [e snap] [[data ->] Hk]. by apply HQ.
Qed.

End LogsUnit.

Section BlockRun.

Variables (P : Platform) (name : string) (version : option string)
  (model : string) (python : option string)
  (system_packages extra_python_packages : list string)
  (workflow : string).

Abbreviation in_block' := (in_block P name version model python
                             system_packages extra_python_packages workflow).
Abbreviation quiet' := (quiet P name version model python system_packages
                          extra_python_packages workflow).
Abbreviation block_post' := (block_post P name version model python
                               system_packages extra_python_packages workflow).

Lemma quiet_no_build (init : gmap PurePath Node) (temp_dir : string)
    (evs : list (Event * gmap PurePath Node)) (args : BuildArgs)
    (snap : gmap PurePath Node) :
  Forall (λ x, quiet' init temp_dir x.1 x.2) evs → ¬ In (EvBuild args, snap) evs.
Proof.
  intros Hq Hin. rewrite Forall_forall in Hq.
  apply list_elem_of_In, Hq in Hin. destruct Hin as [_ Hne].
  by destruct (Hne args).
Qed.

Lemma then_build {A} (init : gmap PurePath Node) (temp_dir : string)
    (m : M A) (k : A → M Bento) (w : World) :
  logs (quiet' init temp_dir) m w (λ r w',
    match r with
    | Ok a => satisfies (k a) w' (λ r2 _ evs, block_post' init temp_dir r2 evs)
    | Raise _ => True
    end) →
  satisfies (m ≫= k) w (λ r _ evs, block_post' init temp_dir r evs).
Proof.
  intros H. apply satisfies_bind. revert H. unfold logs, satisfies.
  destruct (result (m w)) as [a|e]; intros [Hq Hk].
  - destruct Hk as [Hk1 [Hk2 Hk3]]. split; [| split].
    + apply Forall_app. split; [| exact Hk1].
      eapply Forall_impl; [exact Hq |]. by intros x [Hx _].
    + intros args snap [Hin|Hin]%in_app_iff; [| by apply Hk2].
      by destruct (quiet_no_build _ _ _ _ _ Hq Hin).
    + intros bento Hr. destruct (Hk3 bento Hr) as [args [snap Hin]].
      exists args, snap. apply in_app_iff. by right.
  - split; [| split].
    + eapply Forall_impl; [exact Hq |]. by intros x [Hx _].
    + intros args snap Hin. by destruct (quiet_no_build _ _ _ _ _ Hq Hin).
    + discriminate.
Qed.

Lemma quiet_intro (init : gmap PurePath Node) (temp_dir : string) (e : Event)
    (snap : gmap PurePath Node) :
  snap !! Path [temp_dir] = Some Dir →
  match e with
  | EvPrint text => In text creating_texts
  | EvOpen p | EvWrite p _ =>
      p = child (Path [temp_dir]) "requirements.txt"
      ∨ p = child (Path [temp_dir]) "service.py"
  | EvGetRequirements py => py = python
  | EvCopy2 src dst =>
      src = workflow ∧ dst = child (Path [temp_dir]) "workflow.json"
  | _ => False
  end →
  quiet' init temp_dir e snap.
Proof.
  intros Hdir He.
  destruct e; try done; (split; [split; [exact Hdir |] | done]); cbn [In];
    rewrite ?joinpath_requirements, ?joinpath_service, ?joinpath_workflow;
    intuition (subst; auto).
Qed.

(** The lines of [with open(... "requirements.txt", "w") as f]. *)
Lemma requirements_phase (init : gmap PurePath Node) (temp_dir : string)
    (w : World) R :
  let f := child (Path [temp_dir]) "requirements.txt" in
  fs w !! Path [temp_dir] = Some Dir →
  (∀ e w', R (Raise e) w') →
  (∀ base,
     get_requirements P python (<[f := File ""]> (fs w)) = inr base →
     R (Ok tt)
       (with_fs w (<[f := File (requirements_text base extra_python_packages)]>
                     (fs w)))) →
  logs (quiet' init temp_dir)
    (open_w f ;;
     requirements ← call_get_requirements P python;
     write f requirements ;;
     for_each extra_python_packages (λ package,
       write f (Str.newline +:+ package))) w R.
Proof.
  intros f Hdir Hraise Hok.
  assert (Hfd : f ≠ Path [temp_dir]) by apply child_ne_dir.
  apply logs_bind, logs_open_w.
  { apply quiet_intro; [exact Hdir | by left]. }
  { subst f. by rewrite parent_of_child. }
  assert (Hnext : logs (quiet' init temp_dir)
            (requirements ← call_get_requirements P python;
             write f requirements ;;
             for_each extra_python_packages (λ package,
               write f (Str.newline +:+ package)))
            (with_fs w (<[f := File ""]> (fs w))) R).
  { apply logs_bind. unfold call_get_requirements. apply logs_call.
    { apply quiet_intro; [| done]. cbn [fs with_fs].
      by rewrite lookup_insert_ne. }
    cbn [fs with_fs].
    destruct (get_requirements P python _) as [e|base] eqn:Hbase;
      [apply Hraise |].
    apply logs_bind, logs_write.
    { apply quiet_intro; [| by left]. cbn [fs with_fs].
      by rewrite lookup_insert_ne. }
    cbn [fs with_fs]. rewrite lookup_insert_eq, insert_insert_eq.
    apply (logs_write_lines _ _ _ ("" +:+ base)).
    - cbn [fs with_fs]. apply lookup_insert_eq.
    - intros data snap Hsnap. apply quiet_intro; [| by left].
      rewrite Hsnap by done. cbn [fs with_fs]. by rewrite lookup_insert_ne.
    - cbn [fs with_fs]. unfold with_fs. cbn [gettempdir tmpnames].
      rewrite insert_insert_eq. by apply (Hok base). }
  destruct (fs w !! f) as [[]|]; [exact Hnext | apply Hraise | exact Hnext].
Qed.

(** The lines of [with open(... "service.py", "w") as f]. *)
Lemma service_phase (init : gmap PurePath Node) (temp_dir : string)
    (w : World) R :
  let f := child (Path [temp_dir]) "service.py" in
  fs w !! Path [temp_dir] = Some Dir →
  (∀ e w', R (Raise e) w') →
  (∀ text,
     Format.format (service_template P) [("name", name); ("model_tag", model)]
     = inr text →
     R (Ok tt) (with_fs w (<[f := File text]> (fs w)))) →
  logs (quiet' init temp_dir)
    (open_w f ;;
     text ← lift (Format.format (service_template P)
                    [("name", name); ("model_tag", model)]);
     write f text) w R.
Proof.
  intros f Hdir Hraise Hok.
  assert (Hfd : f ≠ Path [temp_dir]) by apply child_ne_dir.
  apply logs_bind, logs_open_w.
  { apply quiet_intro; [exact Hdir | by right]. }
  { subst f. by rewrite parent_of_child. }
  assert (Hnext : logs (quiet' init temp_dir)
            (text ← lift (Format.format (service_template P)
                            [("name", name); ("model_tag", model)]);
             write f text)
            (with_fs w (<[f := File ""]> (fs w))) R).
  { apply logs_bind, logs_lift.
    destruct (Format.format _ _) as [e|text] eqn:Htext; [apply Hraise |].
    apply logs_write.
    { apply quiet_intro; [| by right]. cbn [fs with_fs].
      by rewrite lookup_insert_ne. }
    cbn [fs with_fs]. rewrite lookup_insert_eq, insert_insert_eq.
    unfold with_fs. cbn [gettempdir tmpnames]. by apply Hok. }
  destruct (fs w !! f) as [[]|]; [exact Hnext | apply Hraise | exact Hnext].
Qed.

Lemma build_in_spec (temp_dir : string) (w : World) :
  fs w !! Path [temp_dir] = Some Dir →
  satisfies (build_in P name version model python system_packages
               extra_python_packages workflow temp_dir) w
    (λ r _ evs, block_post' (fs w) temp_dir r evs).
Proof.
  intros Hdir. unfold build_in.
  rewrite creating_requirements_print, creating_service_print,
    creating_workflow_print.
  rewrite joinpath_requirements, joinpath_service, joinpath_workflow.
  set (d := Path [temp_dir]) in *.
  assert (Hrd := child_ne_dir d "requirements.txt").
  assert (Hsd := child_ne_dir d "service.py").
  assert (Hwd := child_ne_dir d "workflow.json").
  assert (Hrs : child d "requirements.txt" ≠ child d "service.py")
    by (intros H%child_inj; discriminate).
  assert (Hrw : child d "requirements.txt" ≠ child d "workflow.json")
    by (intros H%child_inj; discriminate).
  assert (Hsw : child d "service.py" ≠ child d "workflow.json")
    by (intros H%child_inj; discriminate).
  apply then_build, logs_log; [by apply quiet_intro; cbn; auto |].
  apply then_build, requirements_phase; [exact Hdir | done |].
  intros base Hbase.
  match goal with |- context [with_fs w ?m] => set (m1 := m) end.
  assert (Hd1 : m1 !! d = Some Dir) by (subst m1; by rewrite lookup_insert_ne).
  assert (Hr1 : m1 !! child d "requirements.txt"
                = Some (File (requirements_text base extra_python_packages)))
    by (subst m1; apply lookup_insert_eq).
  clearbody m1.
  apply then_build, logs_log; [by apply quiet_intro; cbn; auto |].
  apply then_build, service_phase; [exact Hd1 | done |].
  intros text Htext. cbn [fs with_fs].
  match goal with |- context [with_fs _ ?m] => set (m2 := m) end.
  assert (Hd2 : m2 !! d = Some Dir) by (subst m2; by rewrite lookup_insert_ne).
  assert (Hr2 : m2 !! child d "requirements.txt"
                = Some (File (requirements_text base extra_python_packages)))
    by (subst m2; by rewrite lookup_insert_ne).
  assert (Hs2 : m2 !! child d "service.py" = Some (File text))
    by (subst m2; apply lookup_insert_eq).
  clearbody m2.
  apply then_build, logs_log; [by apply quiet_intro; cbn; auto |].
  apply then_build, logs_copy2.
  { by apply quiet_intro. }
  { cbn [fs with_fs]. by rewrite parent_of_child. }
  cbn [fs with_fs].
  destruct (m2 !! Path [workflow]) as [[c|]|]; [| done | done].
  unfold call_build. apply satisfies_call. cbn [fs with_fs].
  set (args := build_args name version temp_dir system_packages).
  set (m3 := <[child d "workflow.json" := File c]> m2).
  assert (Hin : in_block' (fs w) temp_dir (EvBuild args) m3).
  { split; [subst m3; by rewrite lookup_insert_ne |].
    split; [done |]. unfold build_inputs_ready. subst args.
    cbn [arg_build_ctx build_args].
    rewrite joinpath_requirements, joinpath_service, joinpath_workflow.
    fold d. subst m3. split; [| split].
    - exists base. split; [exact Hbase |]. by rewrite lookup_insert_ne.
    - exists text. split; [exact Htext |]. by rewrite lookup_insert_ne.
    - exists c. apply lookup_insert_eq. }
  destruct (bentoml_build P args m3) as [e|bento] eqn:Hb.
  - split; [constructor; [exact Hin | constructor] | split].
    + intros args' snap [Heq|[]]. injection Heq as <- <-. by rewrite Hb.
    + discriminate.
  - split; [constructor; [exact Hin | constructor] | split].
    + intros args' snap [Heq|[]]. injection Heq as <- <-. by rewrite Hb.
    + intros _ _. exists args, m3. by left.
Qed.
End BlockRun.

(** ** [build] *)

Section Build.

Variables (P : Platform) (name : string) (version : option string)
  (model : string) (python : option string)
  (system_packages extra_python_packages : list string) (push : bool)
  (workflow : string) (w : World).

Lemma build_outcome :
  let o := build P name version model python system_packages
             extra_python_packages push workflow w in
  (result o = Raise FileExistsError ∧ events o = [] ∧ fs (final o) = fs w)
  ∨ ∃ d r blk m,
      fs w !! Path [d] = None
      ∧ block_post P name version model python system_packages
          extra_python_packages workflow (<[Path [d] := Dir]> (fs w)) d r blk
      ∧ result o = after_result P push workflow (rmtree m d) r
      ∧ fs (final o) = rmtree m d
      ∧ events o
        = (EvMkdtemp d, fs w)
          :: blk ++ (EvCleanup d, m)
                    :: after_events P push workflow (rmtree m d) r.
Proof.
  intros o. subst o. rewrite build_run.
  destruct (fresh_dir _ _ _ _ _) as [[d rest]|] eqn:Hfresh; [right | by left].
  apply fresh_dir_fresh in Hfresh.
  set (w1 := MkWorld (<[Path [d] := Dir]> (fs w)) (gettempdir w) rest).
  assert (Hspec := build_in_spec P name version model python system_packages
                     extra_python_packages workflow d w1
                     (lookup_insert_eq _ _ _)).
  unfold satisfies in Hspec. cbn zeta.
  destruct (build_in P _ _ _ _ _ _ _ _ _) as [r w2 blk].
  cbn [result final events fs with_fs] in *.
  by exists d, r, blk, (fs w2).
Qed.

Lemma after_events_inv (m : gmap PurePath Node) (r : Res Bento)
    (e : Event) (snap : gmap PurePath Node) :
  In (e, snap) (after_events P push workflow m r) →
  snap = m
  ∧ ∃ bento,
      r = Ok bento
      ∧ (e = EvPrint (built_message (bento_tag bento) workflow)
         ∨ push = true
           ∧ (e = EvPush bento
              ∨ e = EvPrint (Str.concat (next_steps (bento_tag bento)))
                ∧ bentoml_push P bento m = inr tt)).
Proof.
  unfold after_events. destruct r as [bento|]; [| done].
  intros [Heq|Hin].
  { injection Heq as <- <-. split; [done |]. exists bento. auto. }
  destruct (print_result P _) as [|[]]; [done |].
  destruct push; [| done].
  destruct Hin as [Heq|Hin].
  { injection Heq as <- <-. split; [done |]. exists bento. auto. }
  destruct (bentoml_push P bento m) as [|[]] eqn:Hpush; [done |].
  destruct Hin as [Heq|[]]. injection Heq as <- <-.
  split; [done |]. exists bento. auto 10.
Qed.

Lemma build_call_inv (args : BuildArgs) (snap : gmap PurePath Node) :
  let o := build P name version model python system_packages
             extra_python_packages push workflow w in
  In (EvBuild args, snap) (events o) →
  fs w !! Path [arg_build_ctx args] = None
  ∧ (∃ rest, events o = (EvMkdtemp (arg_build_ctx args), fs w) :: rest)
  ∧ in_block P name version model python system_packages
      extra_python_packages workflow
      (<[Path [arg_build_ctx args] := Dir]> (fs w)) (arg_build_ctx args)
      (EvBuild args) snap.
Proof.
  intros o Hin. subst o.
  destruct build_outcome as [[_ [Hev _]] | [d [r [blk [m H]]]]].
  { rewrite Hev in Hin. destruct Hin. }
  destruct H as [Hfresh [[Hblk _] [_ [_ Hev]]]]. rewrite Hev in *.
  destruct Hin as [Heq|Hin]; [discriminate |].
  apply in_app_iff in Hin. destruct Hin as [Hin|[Heq|Hin]].
  - rewrite Forall_forall in Hblk.
    apply list_elem_of_In, Hblk in Hin. cbn [fst snd] in Hin.
    assert (Hd : arg_build_ctx args = d).
    { destruct Hin as [_ [-> _]]. reflexivity. }
    rewrite Hd. eauto.
  - discriminate.
  - apply after_events_inv in Hin.
    destruct Hin as [_ [bento [_ [H|[_ [H|[H _]]]]]]]; discriminate.
Qed.

End Build.

Lemma build_ok_called (P : Platform) (name : string) (version : option string)
    (model : string) (python : option string)
    (system_packages extra_python_packages : list string) (push : bool)
    (workflow : string) (w : World) :
  let o := build P name version model python system_packages
             extra_python_packages push workflow w in
  result o = Ok tt → ∃ args snap, In (EvBuild args, snap) (events o).
Proof.
  intros o Hok. subst o.
  destruct (build_outcome P name version model python system_packages
              extra_python_packages push workflow w)
    as [[Hr _] | [d [r [blk [m [_ [[_ [_ Hcalled]] [Hr [_ Hev]]]]]]]]].
  { rewrite Hr in Hok. discriminate. }
  rewrite Hr in Hok. destruct r as [bento|e]; [| discriminate].
  destruct (Hcalled bento eq_refl) as [args [snap Hin]].
  exists args, snap. rewrite Hev. right. apply in_app_iff. by left.
Qed.

(** C7.  Whenever [build] calls the build routine, the Docker system
    packages it passes are the seven fixed packages followed by the
    [--system-packages] values in the order given, the included files are
    exactly [service.py], [workflow.json] and [requirements.txt], and each
    of the three is a file of the build context at that moment. *)
Theorem build_call_arguments (P : Platform) (name : string)
    (version : option string) (model : string) (python : option string)
    (system_packages extra_python_packages : list string) (push : bool)
    (workflow : string) (w : World) (args : BuildArgs)
    (snap : gmap PurePath Node) :
  In (EvBuild args, snap)
    (events (build P name version model python system_packages
               extra_python_packages push workflow w)) →
  arg_docker_system_packages args
  = ["git"; "libglib2.0-0"; "libsm6"; "libxrender1"; "libxext6"; "ffmpeg";
     "libstdc++-12-dev"] ++ system_packages
  ∧ arg_include args = ["service.py"; "workflow.json"; "requirements.txt"]
  ∧ arg_service args = "service:ComfyUIService"
  ∧ arg_name args = name
  ∧ arg_version args = version
  ∧ arg_python_requirements_txt args = "requirements.txt"
  ∧ arg_python_lock_packages args = true
  ∧ ∀ file, In file (arg_include args) →
      ∃ c, snap !! joinpath (Path [arg_build_ctx args]) file = Some (File c).
Proof.
  intros Hin. apply build_call_inv in Hin.
  destruct Hin as [_ [_ [_ [Hargs Hready]]]].
  destruct Hready as [[base [_ Hreq]] [[text [_ Hsvc]] [c Hwf]]].
  rewrite Hargs in *. cbn [build_args arg_docker_system_packages arg_include
    arg_service arg_name arg_version arg_python_requirements_txt
    arg_python_lock_packages arg_build_ctx] in *.
  repeat (split; [reflexivity |]).
  intros file [<-|[<-|[<-|[]]]]; eauto.
Qed.

Lemma build_call_arguments_witness :
  ∃ args snap,
    In (EvBuild args, snap) (events (Demo.run Demo.platform))
    ∧ arg_docker_system_packages args
      = ["git"; "libglib2.0-0"; "libsm6"; "libxrender1"; "libxext6"; "ffmpeg";
         "libstdc++-12-dev"; "curl"]
    ∧ arg_include args = ["service.py"; "workflow.json"; "requirements.txt"].
Proof.
  destruct (build_ok_called Demo.platform "svc" None "comfyui" None ["curl"]
              ["numpy"; "pillow"] true "wf.json" Demo.world)
    as [args [snap Hin]]; [vm_compute; reflexivity |].
  exists args, snap. split; [exact Hin |].
  destruct (build_call_arguments _ _ _ _ _ _ _ _ _ _ _ _ Hin)
    as [Hpk [Hinc _]].
  split; [exact Hpk | exact Hinc].
Defined.

(** C5.  Whenever [build] calls the build routine, [requirements.txt] in
    the build context holds the base requirements (what [get_requirements]
    returned for [--python], called once the file was opened) followed by
    one line per [--extra-python-packages] value, in the order given. *)
Theorem build_requirements_txt (P : Platform) (name : string)
    (version : option string) (model : string) (python : option string)
    (system_packages extra_python_packages : list string) (push : bool)
    (workflow : string) (w : World) (args : BuildArgs)
    (snap : gmap PurePath Node) :
  In (EvBuild args, snap)
    (events (build P name version model python system_packages
               extra_python_packages push workflow w)) →
  let ctx := Path [arg_build_ctx args] in
  ∃ base,
    get_requirements P python
      (<[joinpath ctx "requirements.txt" := File ""]> (<[ctx := Dir]> (fs w)))
    = inr base
    ∧ snap !! joinpath ctx "requirements.txt"
      = Some (File (base +:+ Str.concat
                      (map (λ package, Str.newline +:+ package)
                         extra_python_packages))).
Proof.
  intros Hin ctx. apply build_call_inv in Hin.
  destruct Hin as [_ [_ [_ [_ [[base [Hbase Hreq]] _]]]]].
  exists base. split; [exact Hbase | exact Hreq].
Qed.

Lemma build_requirements_txt_witness :
  ∃ args snap,
    In (EvBuild args, snap) (events (Demo.run Demo.platform))
    ∧ snap !! joinpath (Path [arg_build_ctx args]) "requirements.txt"
      = Some (File ("torch==2.0" +:+ Str.newline +:+ "numpy"
                    +:+ Str.newline +:+ "pillow")).
Proof.
  destruct (build_ok_called Demo.platform "svc" None "comfyui" None ["curl"]
              ["numpy"; "pillow"] true "wf.json" Demo.world)
    as [args [snap Hin]]; [vm_compute; reflexivity |].
  exists args, snap. split; [exact Hin |].
  destruct (build_requirements_txt _ _ _ _ _ _ _ _ _ _ _ _ Hin)
    as [base [Hbase Hreq]].
  injection Hbase as <-. exact Hreq.
Defined.

(** ** Templates *)

Lemma render_field (kwargs : list (string * string)) (ps : list Format.piece)
    (key text : string) :
  Format.render kwargs ps = inr text → In (Format.Field key) ps →
  ∃ v, Format.lookup_kw key kwargs = Some v ∧ Str.Substring v text.
Proof.
  revert text. induction ps as [|p ps IH]; intros text Hr Hin; [destruct Hin |].
  cbn [Format.render] in Hr.
  destruct (Format.render_piece kwargs p) as [e|s] eqn:Hp; [discriminate |].
  destruct (Format.render kwargs ps) as [e|t] eqn:Ht; [discriminate |].
  injection Hr as <-. destruct Hin as [->|Hin].
  - cbn [Format.render_piece] in Hp.
    destruct (Format.all_digits key); [discriminate |].
    destruct (Format.lookup_kw key kwargs) as [v|]; [| discriminate].
    injection Hp as <-. exists v. split; [done |]. by exists "", t.
  - destruct (IH t eq_refl Hin) as [v [Hv Hsub]].
    exists v. split; [done |]. by apply Substring_app_r.
Qed.

Lemma format_mentions (template key text : string) (kwargs : list (string * string)) :
  Format.format template kwargs = inr text → Format.mentions template key →
  ∃ v, Format.lookup_kw key kwargs = Some v ∧ Str.Substring v text.
Proof.
  unfold Format.format. intros Hf [ps [Hps Hin]]. rewrite Hps in Hf.
  by apply (render_field kwargs ps).
Qed.

(** C6.  Whenever [build] calls the build routine, [service.py] in the
    build context is the service template formatted with the [--name] and
    [--model] values; with a template that has the fields [{name}] and
    [{model_tag}], the file holds both values as substrings. *)
Theorem build_service_py (P : Platform) (name : string)
    (version : option string) (model : string) (python : option string)
    (system_packages extra_python_packages : list string) (push : bool)
    (workflow : string) (w : World) (args : BuildArgs)
    (snap : gmap PurePath Node) :
  Format.mentions (service_template P) "name" →
  Format.mentions (service_template P) "model_tag" →
  In (EvBuild args, snap)
    (events (build P name version model python system_packages
               extra_python_packages push workflow w)) →
  ∃ text,
    Format.format (service_template P) [("name", name); ("model_tag", model)]
    = inr text
    ∧ snap !! joinpath (Path [arg_build_ctx args]) "service.py" = Some (File text)
    ∧ Str.Substring name text
    ∧ Str.Substring model text.
Proof.
  intros Hname Hmodel Hin. apply build_call_inv in Hin.
  destruct Hin as [_ [_ [_ [_ [_ [[text [Htext Hsvc]] _]]]]]].
  exists text. split; [exact Htext |]. split; [exact Hsvc |]. split.
  - destruct (format_mentions _ _ _ _ Htext Hname) as [v [Hv Hsub]].
    injection Hv as <-. exact Hsub.
  - destruct (format_mentions _ _ _ _ Htext Hmodel) as [v [Hv Hsub]].
    injection Hv as <-. exact Hsub.
Qed.

Lemma build_service_py_witness :
  ∃ args snap,
    In (EvBuild args, snap) (events (Demo.run Demo.platform))
    ∧ snap !! joinpath (Path [arg_build_ctx args]) "service.py"
      = Some (File "svc(svc, comfyui)")
    ∧ Str.Substring "svc" "svc(svc, comfyui)"
    ∧ Str.Substring "comfyui" "svc(svc, comfyui)".
Proof.
  destruct (build_ok_called Demo.platform "svc" None "comfyui" None ["curl"]
              ["numpy"; "pillow"] true "wf.json" Demo.world)
    as [args [snap Hin]]; [vm_compute; reflexivity |].
  exists args, snap. split; [exact Hin |].
  assert (Hname : Format.mentions (service_template Demo.platform) "name").
  { eexists. split; [vm_compute; reflexivity |]. cbn [In]. auto 10. }
  assert (Hmodel : Format.mentions (service_template Demo.platform) "model_tag").
  { eexists. split; [vm_compute; reflexivity |]. cbn [In]. auto 20. }
  destruct (build_service_py _ _ _ _ _ _ _ _ _ _ _ _ Hname Hmodel Hin)
    as [text [Htext [Hsvc [H1 H2]]]].
  vm_compute in Htext. injection Htext as <-. auto.
Defined.

(** ** The temporary directory and the push *)

(** C4.  Unless every candidate name is taken, [build] starts by creating a
    fresh temporary directory.  The directory exists at each effect that
    works in it (the files written, the workflow copied, the build routine
    run), it is removed in the run, and when [build] returns, by its end
    or by an exception, neither the directory nor anything below it is in
    the file system. *)
Theorem build_temp_dir_scoped (P : Platform) (name : string)
    (version : option string) (model : string) (python : option string)
    (system_packages extra_python_packages : list string) (push : bool)
    (workflow : string) (w : World) :
  let o := build P name version model python system_packages
             extra_python_packages push workflow w in
  (result o = Raise FileExistsError ∧ events o = [] ∧ fs (final o) = fs w)
  ∨ ∃ d rest,
      events o = (EvMkdtemp d, fs w) :: rest
      ∧ fs w !! Path [d] = None
      ∧ (∀ e snap, In (e, snap) rest → uses_build_dir e →
           snap !! Path [d] = Some Dir)
      ∧ In (EvCleanup d) (map fst rest)
      ∧ (∀ p, under (Path [d]) p → fs (final o) !! p = None).
Proof.
  intros o. subst o.
  destruct (build_outcome P name version model python system_packages
              extra_python_packages push workflow w)
    as [H | [d [r [blk [m [Hfresh [[Hblk _] [_ [Hfs Hev]]]]]]]]]; [by left |].
  right. exists d. eexists. split; [exact Hev |]. split; [exact Hfresh |].
  split; [| split].
  - intros e snap Hin Huse. apply in_app_iff in Hin.
    destruct Hin as [Hin|[Heq|Hin]].
    + rewrite Forall_forall in Hblk.
      apply list_elem_of_In, Hblk in Hin. by destruct Hin as [Hdir _].
    + injection Heq as <- <-. destruct Huse.
    + apply after_events_inv in Hin.
      destruct Hin as [_ [bento [_ [->|[_ [->|[-> _]]]]]]]; destruct Huse.
  - rewrite map_app. apply in_app_iff. right. by left.
  - intros p Hp. rewrite Hfs. by apply rmtree_lookup_under.
Qed.

Lemma build_temp_dir_scoped_witness :
  ∃ d rest,
    events (Demo.run Demo.failing_platform) = (EvMkdtemp d, Demo.files) :: rest
    ∧ result (Demo.run Demo.failing_platform)
      = Raise (PlatformError "build failed")
    ∧ ∀ p, under (Path [d]) p →
           fs (final (Demo.run Demo.failing_platform)) !! p = None.
Proof.
  assert (Hr : result (Demo.run Demo.failing_platform)
               = Raise (PlatformError "build failed"))
    by (vm_compute; reflexivity).
  destruct (build_temp_dir_scoped Demo.failing_platform "svc" None "comfyui"
              None ["curl"] ["numpy"; "pillow"] true "wf.json" Demo.world)
    as [[Hx _] | [d [rest [Hev [_ [_ [_ Hgone]]]]]]].
  - exfalso. unfold Demo.run in Hr. rewrite Hx in Hr. discriminate Hr.
  - exists d, rest. split; [exact Hev |]. split; [exact Hr | exact Hgone].
Defined.

Lemma next_steps_not_creating (tag text : string) :
  In text creating_texts → text ≠ Str.concat (next_steps tag).
Proof.
  unfold creating_texts. cbn [In].
  intros [<-|[<-|[<-|[]]]] H; discriminate H.
Qed.

Lemma next_steps_not_built (tag tag' workflow : string) :
  built_message tag' workflow ≠ Str.concat (next_steps tag).
Proof. intros H. discriminate H. Qed.

Lemma after_events_push (P : Platform) (push : bool) (workflow : string)
    (m : gmap PurePath Node) (r : Res Bento) (bento : Bento)
    (snap : gmap PurePath Node) :
  In (EvPush bento, snap) (after_events P push workflow m r) →
  r = Ok bento ∧ push = true ∧ snap = m
  ∧ print_result P (built_message (bento_tag bento) workflow) = inr tt.
Proof.
  unfold after_events. destruct r as [bento'|]; [| done].
  intros [Heq|Hin]; [discriminate Heq |].
  destruct (print_result P _) as [|[]] eqn:Hprint; [done |].
  destruct push; [| done].
  destruct Hin as [Heq|Hin].
  { injection Heq as <- <-. done. }
  destruct (bentoml_push P bento' m) as [|[]]; [done |].
  destruct Hin as [Heq|[]]. discriminate Heq.
Qed.

(** C10, as amended.  [build] calls the push routine only when [--push]
    was given, and then only once the build routine has returned a bento
    and the build-success message has rendered: the call comes after the
    removal of the temporary directory, which is no longer in the file
    system at that moment, and after the build-success message.  With
    [--push], a bento the build routine returns is pushed exactly when the
    build-success message renders: when [rich.print] raises on it, the
    push routine is not called.  Without [--push] there is no push call
    and no deployment hint. *)
Theorem build_push_after_build (P : Platform) (name : string)
    (version : option string) (model : string) (python : option string)
    (system_packages extra_python_packages : list string) (push : bool)
    (workflow : string) (w : World) :
  let o := build P name version model python system_packages
             extra_python_packages push workflow w in
  (∀ bento snap, In (EvPush bento, snap) (events o) →
     push = true
     ∧ (∃ args s, In (EvBuild args, s) (events o)
                  ∧ bentoml_build P args s = inr bento)
     ∧ print_result P (built_message (bento_tag bento) workflow) = inr tt
     ∧ ∃ d pre post,
         events o = pre ++ (EvPush bento, snap) :: post
         ∧ In (EvMkdtemp d) (map fst pre)
         ∧ In (EvCleanup d) (map fst pre)
         ∧ In (EvPrint (built_message (bento_tag bento) workflow)) (map fst pre)
         ∧ ∀ p, under (Path [d]) p → snap !! p = None)
  ∧ (push = true → ∀ args s bento,
       In (EvBuild args, s) (events o) → bentoml_build P args s = inr bento →
       (In (EvPush bento) (map fst (events o))
        ↔ print_result P (built_message (bento_tag bento) workflow) = inr tt))
  ∧ (push = false → ∀ e, In e (map fst (events o)) →
       (∀ bento, e ≠ EvPush bento)
       ∧ ∀ tag, e ≠ EvPrint (Str.concat (next_steps tag))).
Proof.
  intros o. subst o.
  destruct (build_outcome P name version model python system_packages
              extra_python_packages push workflow w)
    as [[_ [Hev _]] | [d [r [blk [m [_ [Hpost [_ [_ Hev]]]]]]]]];
    rewrite Hev; clear Hev.
  { split; [| split]; [intros ? ? [] | intros _ ? ? ? [] | intros _ ? []]. }
  destruct Hpost as [Hblk [Hres Hcalled]].
  rewrite Forall_forall in Hblk.
  split; [| split].
  - intros bento snap [Heq|Hin]; [discriminate Heq |].
    apply in_app_iff in Hin. destruct Hin as [Hin|[Heq|Hin]].
    + apply list_elem_of_In, Hblk in Hin. by destruct Hin as [_ []].
    + discriminate Heq.
    + destruct (after_events_push P push workflow _ _ _ _ Hin)
        as [-> [-> [-> Hprint]]].
      split; [done |].
      destruct (Hcalled bento eq_refl) as [args [s Hb]].
      assert (Hret := Hres args s Hb).
      split; [| split; [exact Hprint |]].
      * exists args, s. split; [right; apply in_app_iff; by left |].
        destruct (bentoml_build P args s); congruence.
      * exists d, ((EvMkdtemp d, fs w)
                   :: blk ++ [(EvCleanup d, m);
                              (EvPrint (built_message (bento_tag bento) workflow),
                               rmtree m d)]).
        eexists. cbn [after_events]. rewrite Hprint.
        split; [| split; [| split; [| split]]].
        -- cbn [app]. rewrite <- app_assoc. reflexivity.
        -- by left.
        -- cbn [map fst]. right. rewrite map_app. apply in_app_iff.
           right. by left.
        -- cbn [map fst]. right. rewrite map_app. apply in_app_iff.
           right. right. by left.
        -- intros p Hp. by apply rmtree_lookup_under.
  - intros -> args s bento [Heq|Hin] Hb; [discriminate Heq |].
    apply in_app_iff in Hin. destruct Hin as [Hin|[Heq|Hin]].
    + assert (Hret := Hres args s Hin). rewrite Hb in Hret. subst r.
      split.
      * intros Hpushed. apply in_map_iff in Hpushed.
        destruct Hpushed as [[e snap] [Hfst Hpushed]].
        cbn [fst] in Hfst. subst e.
        destruct Hpushed as [Heq|Hpushed]; [discriminate Heq |].
        apply in_app_iff in Hpushed.
        destruct Hpushed as [Hpushed|[Heq|Hpushed]].
        -- apply list_elem_of_In, Hblk in Hpushed.
           by destruct Hpushed as [_ []].
        -- discriminate Heq.
        -- by destruct (after_events_push P true workflow _ _ _ _ Hpushed)
             as [_ [_ [_ Hprint]]].
      * intros Hprint. cbn [after_events map fst]. rewrite Hprint.
        right. rewrite map_app. apply in_app_iff.
        right. right. right. by left.
    + discriminate Heq.
    + destruct (after_events_inv P true workflow _ _ _ _ Hin)
        as [_ [bento' [_ [Hk|[_ [Hk|[Hk _]]]]]]]; discriminate Hk.
  - intros -> e Hin. apply in_map_iff in Hin.
    destruct Hin as [[e' snap] [<- Hin]]. cbn [fst].
    destruct Hin as [Heq|Hin]; [by injection Heq as <- <- |].
    apply in_app_iff in Hin. destruct Hin as [Hin|[Heq|Hin]].
    + apply list_elem_of_In, Hblk in Hin. cbn [fst snd] in Hin.
      destruct Hin as [_ Hkind]. split; [intros bento ->; destruct Hkind |].
      intros tag ->. by apply (next_steps_not_creating tag) in Hkind.
    + by injection Heq as <- <-.
    + destruct (after_events_inv P false workflow _ _ _ _ Hin)
        as [_ [bento' [_ [->|[Hk _]]]]]; [| discriminate Hk].
      split; [done |]. intros tag Heq.
      apply (next_steps_not_built tag (bento_tag bento') workflow).
      exact (f_equal (λ e, match e with EvPrint text => text | _ => "" end) Heq).
Qed.

Lemma build_push_after_build_witness :
  In (EvPush (MkBento "svc:v1")) (map fst (events (Demo.run Demo.platform))).
Proof.
  destruct (build_ok_called Demo.platform "svc" None "comfyui" None ["curl"]
              ["numpy"; "pillow"] true "wf.json" Demo.world)
    as [args [snap Hin]]; [vm_compute; reflexivity |].
  destruct (build_push_after_build Demo.platform "svc" None "comfyui" None
              ["curl"] ["numpy"; "pillow"] true "wf.json" Demo.world)
    as [_ [Hpush _]].
  assert (Hargs : arg_name args = "svc").
  { apply build_call_inv in Hin. destruct Hin as [_ [_ [_ [-> _]]]].
    reflexivity. }
  apply (Hpush eq_refl args snap (MkBento "svc:v1")).
  - exact Hin.
  - cbn [bentoml_build Demo.platform]. rewrite Hargs. reflexivity.
  - vm_compute. reflexivity.
Defined.

(** C10, as stated, fails: with [--push] given and a build routine that
    raises, the push routine is not called. *)
Lemma build_push_counterexample :
  let o := Demo.run Demo.failing_platform in
  result o = Raise (PlatformError "build failed")
  ∧ pushes o = []
  ∧ ¬ (pushes o ≠ [] ↔ true = true).
Proof.
  assert (Hnone : pushes (Demo.run Demo.failing_platform) = [])
    by (vm_compute; reflexivity).
  split; [vm_compute; reflexivity |]. split; [exact Hnone |].
  intros [_ H]. exact (H eq_refl Hnone).
Qed.

(** * Further properties *)

(** ** The run of the block, step by step *)

Lemma satisfies_write_lines_kinds (f : PurePath) (xs : list string) :
  ∀ (c : string) (w : World) post,
    fs w !! f = Some (File c) →
    (∀ evs,
       map fst evs = map (λ x, EvWrite f (Str.newline +:+ x)) xs →
       post (Ok tt)
         (with_fs w (<[f := File (c +:+ Str.concat
                                    (map (λ x, Str.newline +:+ x) xs))]> (fs w)))
         evs) →
    satisfies (for_each xs (λ package, write f (Str.newline +:+ package))) w post.
Proof.
  induction xs as [|x xs IH]; intros c w post Hf Hpost.
  - specialize (Hpost [] eq_refl). cbn [map Str.concat] in Hpost.
    rewrite append_nil_r, (insert_id _ _ _ Hf), with_fs_id in Hpost. exact Hpost.
  - cbn [for_each]. apply satisfies_bind, satisfies_write. rewrite Hf.
    apply (IH (c +:+ Str.newline +:+ x)); cbn [fs with_fs].
    + apply lookup_insert_eq.
    + intros evs Hevs.
      specialize (Hpost ((EvWrite f (Str.newline +:+ x), fs w) :: evs)).
      unfold with_fs in *. cbn [fs gettempdir tmpnames map Str.concat fst app] in *.
      rewrite insert_insert_eq, append_assoc. apply Hpost. by rewrite Hevs.
Qed.

Lemma satisfies_lift {A} (r : Exn + A) (w : World) post :
  match r with inl e => post (Raise e) w [] | inr a => post (Ok a) w [] end →
  satisfies (lift r) w post.
Proof. by destruct r. Qed.

Ltac kinds_done Hevs :=
  repeat f_equal; rewrite ?map_app; cbn [map fst app];
  rewrite ?map_app, ?Hevs; unfold requirements_writes;
  cbn [map fst app]; rewrite <- ?app_assoc; cbn [app]; reflexivity.

Section Summary.

Variables (P : Platform) (name : string) (version : option string)
  (model : string) (python : option string)
  (system_packages extra_python_packages : list string)
  (workflow : string).

Lemma build_in_summary (temp_dir : string) (w : World) :
  fs w !! Path [temp_dir] = Some Dir →
  let o := build_in P name version model python system_packages
             extra_python_packages workflow temp_dir w in
  (result o, kinds o, fs (final o))
  = block_summary P name version model python system_packages
      extra_python_packages workflow temp_dir (fs w).
Proof.
  intros Hdir o. subst o.
  change (satisfies (build_in P name version model python system_packages
                       extra_python_packages workflow temp_dir) w
            (λ r w' evs,
               (r, map fst evs, fs w')
               = block_summary P name version model python system_packages
                   extra_python_packages workflow temp_dir (fs w))).
  unfold build_in, block_summary.
  rewrite creating_requirements_print, creating_service_print,
    creating_workflow_print.
  rewrite joinpath_requirements, joinpath_service, joinpath_workflow.
  set (d := Path [temp_dir]) in *.
  assert (Hrd := child_ne_dir d "requirements.txt").
  assert (Hsd := child_ne_dir d "service.py").
  assert (Hwd := child_ne_dir d "workflow.json").
  assert (Hrs : child d "requirements.txt" ≠ child d "service.py")
    by (intros H%child_inj; discriminate H).
  assert (Hrw : child d "requirements.txt" ≠ child d "workflow.json")
    by (intros H%child_inj; discriminate H).
  assert (Hsw : child d "service.py" ≠ child d "workflow.json")
    by (intros H%child_inj; discriminate H).
  cbn zeta.
  set (req := child d "requirements.txt") in *.
  set (svc := child d "service.py") in *.
  set (wf := child d "workflow.json") in *.
  apply satisfies_bind. unfold satisfies at 1.
  cbn [log result final events].
  apply satisfies_bind, satisfies_bind, satisfies_open_w.
  { subst req. by rewrite parent_of_child. }
  destruct (fs w !! req) as [[c0|]|] eqn:Hreq; [| reflexivity |].
  all: apply satisfies_bind; unfold call_get_requirements; apply satisfies_call.
  all: cbn [fs with_fs].
  all: destruct (get_requirements P python (<[req:=File ""]> (fs w))) as [e|base];
    [reflexivity |].
  all: apply satisfies_bind, satisfies_write; cbn [fs with_fs].
  all: rewrite lookup_insert_eq, insert_insert_eq.
  all: apply (satisfies_write_lines_kinds req extra_python_packages ("" +:+ base));
    [cbn [fs with_fs]; apply lookup_insert_eq |].
  all: intros evs Hevs; cbn [fs with_fs]; unfold with_fs at 1 2.
  all: cbn [fs gettempdir tmpnames]; rewrite insert_insert_eq.
  all: fold (requirements_text ("" +:+ base) extra_python_packages).
  all: change ("" +:+ base) with base.
  all: set (m2 := <[req := File (requirements_text base extra_python_packages)]> (fs w)).
  all: assert (Hd2 : m2 !! d = Some Dir) by (subst m2; by rewrite lookup_insert_ne).
  all: apply satisfies_bind; unfold satisfies at 1.
  all: cbn [log result final events fs].
  all: apply satisfies_bind, satisfies_bind, satisfies_open_w;
    [subst svc; by rewrite parent_of_child |].
  all: cbn [fs].
  all: destruct (m2 !! svc) as [[c1|]|] eqn:Hsvc.
  all: try (unfold with_fs; cbn [fs]; kinds_done Hevs).
  all: apply satisfies_bind, satisfies_lift.
  all: destruct (Format.format (service_template P) _) as [e|text].
  all: try (unfold with_fs; cbn [fs]; kinds_done Hevs).
  all: apply satisfies_write; cbn [fs with_fs].
  all: rewrite lookup_insert_eq, insert_insert_eq.
  all: unfold with_fs; cbn [fs gettempdir tmpnames].
  all: change ("" +:+ text) with text.
  all: set (m3 := <[svc := File text]> m2).
  all: assert (Hd3 : m3 !! d = Some Dir) by (subst m3; by rewrite lookup_insert_ne).
  all: apply satisfies_bind; unfold satisfies at 1.
  all: cbn [log result final events fs].
  all: apply satisfies_bind, satisfies_copy2;
    [subst wf; by rewrite parent_of_child |].
  all: cbn [fs].
  all: destruct (m3 !! Path [workflow]) as [[c|]|].
  all: try (unfold with_fs; cbn [fs]; kinds_done Hevs).
  all: unfold call_build; apply satisfies_call.
  all: unfold with_fs; cbn [fs].
  all: destruct (bentoml_build P _ _).
  all: kinds_done Hevs.
Qed.

End Summary.

(** ** The whole run *)

Lemma build_summary_eq (P : Platform) (name : string) (version : option string)
    (model : string) (python : option string)
    (system_packages extra_python_packages : list string) (push : bool)
    (workflow : string) (w : World) :
  let o := build P name version model python system_packages
             extra_python_packages push workflow w in
  (result o, kinds o, fs (final o))
  = build_summary P name version model python system_packages
      extra_python_packages push workflow w.
Proof.
  intros o. subst o. unfold build_summary, kinds. rewrite build_run.
  destruct (fresh_dir _ _ _ _ _) as [[d rest]|]; [| reflexivity].
  set (w1 := MkWorld (<[Path [d] := Dir]> (fs w)) (gettempdir w) rest).
  assert (Hsum := build_in_summary P name version model python system_packages
                    extra_python_packages workflow d w1 (lookup_insert_eq _ _ _)).
  cbn zeta in Hsum. unfold kinds in Hsum.
  change (fs w1) with (<[Path [d] := Dir]> (fs w)) in Hsum.
  rewrite <- Hsum. cbn zeta. cbn [result final events fs with_fs map fst].
  by rewrite map_app.
Qed.

Lemma under_refl (d : PurePath) : under d d.
Proof. split; [done | reflexivity]. Qed.

Lemma under_child (d : PurePath) (leaf : string) : under d (child d leaf).
Proof. split; [done | by apply prefix_app_r]. Qed.

Lemma rmtree_lookup_other (m : gmap PurePath Node) (dir : string) (p : PurePath) :
  ¬ under (Path [dir]) p → rmtree m dir !! p = m !! p.
Proof.
  intros Hu. unfold rmtree. destruct (m !! p) as [x|] eqn:Hm.
  - by apply map_lookup_filter_Some.
  - apply map_lookup_filter_None. by left.
Qed.

(** In a well-formed file system nothing lies under a path that does not
    exist. *)
Lemma well_formed_under (m : gmap PurePath Node) (d k : PurePath) :
  well_formed m → m !! d = None → under d k → m !! k = None.
Proof.
  intros Hwf Hd [Hroot [l Hl]]. revert k Hroot Hl.
  induction l as [|x l IH] using rev_ind; intros [r ps] Hroot Hl;
    cbn [root parts] in *; subst r ps.
  - rewrite app_nil_r. by destruct d.
  - destruct (m !! MkPath (root d) (parts d ++ l ++ [x])) as [y|] eqn:Hk; [| done].
    assert (Hne : parts (MkPath (root d) (parts d ++ l ++ [x])) ≠ []).
    { cbn [parts]. by destruct (parts d), l. }
    assert (Hparent := Hwf _ _ Hk Hne).
    unfold parent_of in Hparent. cbn [root parts] in Hparent.
    rewrite app_assoc, removelast_last in Hparent.
    by rewrite (IH (MkPath (root d) (parts d ++ l)) eq_refl eq_refl) in Hparent.
Qed.

Section Summaries.

Variables (P : Platform) (name : string) (version : option string)
  (model : string) (python : option string)
  (system_packages extra_python_packages : list string) (push : bool)
  (workflow : string).

Lemma build_result_eq (w : World) :
  result (build P name version model python system_packages
            extra_python_packages push workflow w)
  = (build_summary P name version model python system_packages
       extra_python_packages push workflow w).1.1.
Proof. by rewrite <- build_summary_eq. Qed.

Lemma build_kinds_eq (w : World) :
  kinds (build P name version model python system_packages
           extra_python_packages push workflow w)
  = (build_summary P name version model python system_packages
       extra_python_packages push workflow w).1.2.
Proof. by rewrite <- build_summary_eq. Qed.

Lemma build_fs_eq (w : World) :
  fs (final (build P name version model python system_packages
               extra_python_packages push workflow w))
  = (build_summary P name version model python system_packages
       extra_python_packages push workflow w).2.
Proof. by rewrite <- build_summary_eq. Qed.

(** The block changes nothing outside the temporary directory. *)
Lemma block_summary_frame (d : string) (m0 : gmap PurePath Node) (k : PurePath) :
  ¬ under (Path [d]) k →
  (block_summary P name version model python system_packages
     extra_python_packages workflow d m0).2 !! k = m0 !! k.
Proof.
  intros Hk.
  assert (Hne : ∀ leaf, child (Path [d]) leaf ≠ k).
  { intros leaf <-. apply Hk, under_child. }
  unfold block_summary. cbn zeta.
  repeat case_match; cbn [snd]; rewrite ?lookup_insert_ne by apply Hne; done.
Qed.

(** The three files of a fresh temporary directory, in a file system with
    nothing under the directory. *)
Lemma fresh_requirements (d : string) (m : gmap PurePath Node) :
  (∀ k, under (Path [d]) k → m !! k = None) →
  <[Path [d] := Dir]> m !! child (Path [d]) "requirements.txt" = None.
Proof.
  intros Hnone. rewrite lookup_insert_ne by (symmetry; apply child_ne_dir).
  apply Hnone, under_child.
Qed.

Lemma fresh_service (d : string) (m : gmap PurePath Node) (x : Node) :
  (∀ k, under (Path [d]) k → m !! k = None) →
  <[child (Path [d]) "requirements.txt" := x]> (<[Path [d] := Dir]> m)
    !! child (Path [d]) "service.py" = None.
Proof.
  intros Hnone.
  rewrite lookup_insert_ne by (intros H%child_inj; discriminate H).
  rewrite lookup_insert_ne by (symmetry; apply child_ne_dir).
  apply Hnone, under_child.
Qed.

Lemma outside_lookup (d : string) (m : gmap PurePath Node) (x y : Node)
    (p : PurePath) :
  ¬ under (Path [d]) p →
  <[child (Path [d]) "service.py" := y]>
    (<[child (Path [d]) "requirements.txt" := x]> (<[Path [d] := Dir]> m)) !! p
  = m !! p.
Proof.
  intros Hp.
  rewrite !lookup_insert_ne; [done | | |]; intros <-; apply Hp;
    auto using under_refl, under_child.
Qed.

End Summaries.

(** X14.  Whatever its result, [build] leaves every path outside the
    temporary directory as it found it and nothing at or below the
    directory; a well-formed file system is left exactly as it was
    found. *)
Theorem build_file_system_after (P : Platform) (name : string)
    (version : option string) (model : string) (python : option string)
    (system_packages extra_python_packages : list string) (push : bool)
    (workflow : string) (w : World) :
  let o := build P name version model python system_packages
             extra_python_packages push workflow w in
  match fresh_dir (fs w) (gettempdir w) "bentoml-comfyui-" "-bento" (tmpnames w) with
  | None => fs (final o) = fs w
  | Some (d, _) =>
      ∀ k, fs (final o) !! k
           = if decide (under (Path [d]) k) then None else fs w !! k
  end
  ∧ (well_formed (fs w) → fs (final o) = fs w).
Proof.
  intros o. subst o. rewrite build_fs_eq. unfold build_summary.
  destruct (fresh_dir _ _ _ _ _) as [[d rest]|] eqn:Hfresh; [| done].
  apply fresh_dir_fresh in Hfresh.
  assert (Hframe := block_summary_frame P name version model python
                      system_packages extra_python_packages workflow d
                      (<[Path [d] := Dir]> (fs w))).
  destruct (block_summary _ _ _ _ _ _ _ _ _ _) as [[r ks] m].
  cbn [fst snd] in *.
  assert (Hall : ∀ k, rmtree m d !! k
                      = if decide (under (Path [d]) k) then None else fs w !! k).
  { intros k. case_decide as Hk.
    - by apply rmtree_lookup_under.
    - rewrite rmtree_lookup_other by done. rewrite (Hframe k Hk).
      apply lookup_insert_ne. intros <-. apply Hk, under_refl. }
  split; [exact Hall |].
  intros Hwf. apply map_eq. intros k. rewrite Hall.
  case_decide as Hk; [| done].
  symmetry. by apply (well_formed_under _ (Path [d])).
Qed.

Section Clean.

Variables (P : Platform) (name : string) (version : option string)
  (model : string) (python : option string)
  (system_packages extra_python_packages : list string) (push : bool)
  (workflow : string) (w : World) (d : string) (rest : list string).

Hypothesis Hwf : well_formed (fs w).
Hypothesis Hfresh :
  fresh_dir (fs w) (gettempdir w) "bentoml-comfyui-" "-bento" (tmpnames w)
  = Some (d, rest).

Lemma nothing_under_fresh (k : PurePath) : under (Path [d]) k → fs w !! k = None.
Proof.
  apply well_formed_under; [exact Hwf |]. by apply fresh_dir_fresh in Hfresh.
Qed.

Lemma present_outside (p : PurePath) (x : Node) :
  fs w !! p = Some x → ¬ under (Path [d]) p.
Proof. intros Hp Hu. by rewrite (nothing_under_fresh p Hu) in Hp. Qed.

(** After the removal of the directory the file system is the one [build]
    started in. *)
Lemma rmtree_block (m : gmap PurePath Node) :
  (∀ k, ¬ under (Path [d]) k → m !! k = fs w !! k) → rmtree m d = fs w.
Proof.
  intros Hm. apply map_eq. intros k.
  destruct (decide (under (Path [d]) k)) as [Hk|Hk].
  - rewrite rmtree_lookup_under by done. symmetry. by apply nothing_under_fresh.
  - rewrite rmtree_lookup_other by done. by apply Hm.
Qed.

End Clean.

Lemma build_context_outside (d : string) (m : gmap PurePath Node)
    (requirements text c : string) (k : PurePath) :
  ¬ under (Path [d]) k → build_context d m requirements text c !! k = m !! k.
Proof.
  intros Hk. unfold build_context.
  rewrite !lookup_insert_ne; [done | | | |]; intros <-; apply Hk;
    auto using under_refl, under_child.
Qed.


(** X17.  When the build routine has returned a bento and [rich.print]
    raises on the success message, [build] raises that exception: the
    directory was removed before, the message is the last effect, and the
    push routine is not called, even with [--push]. *)
Theorem build_success_message_error (P : Platform) (name : string)
    (version : option string) (model : string) (python : option string)
    (system_packages extra_python_packages : list string) (push : bool)
    (workflow : string) (w : World) (d : string) (rest : list string)
    (base text c : string) (bento : Bento) (e : Exn) :
  well_formed (fs w) →
  fresh_dir (fs w) (gettempdir w) "bentoml-comfyui-" "-bento" (tmpnames w)
  = Some (d, rest) →
  get_requirements P python
    (<[joinpath (Path [d]) "requirements.txt" := File ""]>
       (<[Path [d] := Dir]> (fs w))) = inr base →
  Format.format (service_template P) [("name", name); ("model_tag", model)]
  = inr text →
  fs w !! Path [workflow] = Some (File c) →
  bentoml_build P (build_args name version d system_packages)
    (build_context d (fs w) (requirements_text base extra_python_packages) text c)
  = inr bento →
  print_result P (built_message (bento_tag bento) workflow) = inl e →
  let o := build P name version model python system_packages
             extra_python_packages push workflow w in
  let requirements := joinpath (Path [d]) "requirements.txt" in
  let service := joinpath (Path [d]) "service.py" in
  result o = Raise e
  ∧ kinds o
    = [EvMkdtemp d; EvPrint "📂 [blue]Creating requirements.txt[/]";
       EvOpen requirements; EvGetRequirements python]
      ++ requirements_writes requirements base extra_python_packages
      ++ [EvPrint "📂 [blue]Creating service.py[/]"; EvOpen service;
          EvWrite service text; EvPrint "📂 [blue]Creating workflow.json[/]";
          EvCopy2 workflow (joinpath (Path [d]) "workflow.json");
          EvBuild (build_args name version d system_packages);
          EvCleanup d;
          EvPrint (built_message (bento_tag bento) workflow)]
  ∧ fs (final o) = fs w.
Proof.
  intros Hwf Hfresh Hget Hfmt Hfile Hbuild Hprint o requirements service.
  subst o requirements service.
  rewrite joinpath_requirements, joinpath_service, joinpath_workflow in *.
  rewrite build_result_eq, build_kinds_eq, build_fs_eq.
  unfold build_summary. rewrite Hfresh. unfold block_summary. cbn zeta.
  assert (Hnone := nothing_under_fresh w d rest Hwf Hfresh).
  rewrite (fresh_requirements d (fs w) Hnone), Hget.
  rewrite (fresh_service d (fs w) _ Hnone), Hfmt.
  rewrite outside_lookup by (by eapply present_outside).
  rewrite Hfile. fold (build_context d (fs w)
    (requirements_text base extra_python_packages) text c).
  rewrite Hbuild. cbn [fst snd].
  rewrite (rmtree_block w d rest Hwf Hfresh)
    by (intros k Hk; by apply build_context_outside).
  unfold after_result, after_events. rewrite Hprint.
  cbn [fst snd map app]. split; [done |]. split; [| done].
  rewrite <- ?app_assoc. cbn [app]. reflexivity.
Qed.

Lemma requirements_writes_no_build (f : PurePath) (base : string)
    (extras : list string) (args : BuildArgs) :
  ¬ In (EvBuild args) (requirements_writes f base extras).
Proof.
  unfold requirements_writes. intros [H|H]; [discriminate H |].
  apply in_map_iff in H. destruct H as [x [H _]]. discriminate H.
Qed.

(** X6.  When [get_requirements] raises, [build] raises the same
    exception: [requirements.txt] was opened and nothing written, neither
    [service.py] nor the build routine is reached, and the directory is
    removed. *)
Theorem build_requirements_error (P : Platform) (name : string)
    (version : option string) (model : string) (python : option string)
    (system_packages extra_python_packages : list string) (push : bool)
    (workflow : string) (w : World) (d : string) (rest : list string)
    (e : Exn) :
  well_formed (fs w) →
  fresh_dir (fs w) (gettempdir w) "bentoml-comfyui-" "-bento" (tmpnames w)
  = Some (d, rest) →
  get_requirements P python
    (<[joinpath (Path [d]) "requirements.txt" := File ""]>
       (<[Path [d] := Dir]> (fs w))) = inl e →
  let o := build P name version model python system_packages
             extra_python_packages push workflow w in
  result o = Raise e
  ∧ kinds o
    = [EvMkdtemp d; EvPrint "📂 [blue]Creating requirements.txt[/]";
       EvOpen (joinpath (Path [d]) "requirements.txt");
       EvGetRequirements python; EvCleanup d].
Proof.
  intros Hwf Hfresh Hget o. subst o.
  rewrite joinpath_requirements in *.
  rewrite build_result_eq, build_kinds_eq.
  unfold build_summary. rewrite Hfresh. unfold block_summary. cbn zeta.
  assert (Hnone := nothing_under_fresh w d rest Hwf Hfresh).
  rewrite (fresh_requirements d (fs w) Hnone), Hget.
  split; reflexivity.
Qed.

(** X7.  When the template cannot be formatted, [build] raises the
    exception of [format] after [requirements.txt] is written and
    [service.py] opened: the workflow is not copied, the build routine is
    not called, and the directory is removed. *)
Theorem build_template_error (P : Platform) (name : string)
    (version : option string) (model : string) (python : option string)
    (system_packages extra_python_packages : list string) (push : bool)
    (workflow : string) (w : World) (d : string) (rest : list string)
    (base : string) (e : Exn) :
  well_formed (fs w) →
  fresh_dir (fs w) (gettempdir w) "bentoml-comfyui-" "-bento" (tmpnames w)
  = Some (d, rest) →
  get_requirements P python
    (<[joinpath (Path [d]) "requirements.txt" := File ""]>
       (<[Path [d] := Dir]> (fs w))) = inr base →
  Format.format (service_template P) [("name", name); ("model_tag", model)]
  = inl e →
  let o := build P name version model python system_packages
             extra_python_packages push workflow w in
  let requirements := joinpath (Path [d]) "requirements.txt" in
  result o = Raise e
  ∧ kinds o
    = [EvMkdtemp d; EvPrint "📂 [blue]Creating requirements.txt[/]";
       EvOpen requirements; EvGetRequirements python]
      ++ requirements_writes requirements base extra_python_packages
      ++ [EvPrint "📂 [blue]Creating service.py[/]";
          EvOpen (joinpath (Path [d]) "service.py"); EvCleanup d].
Proof.
  intros Hwf Hfresh Hget Hfmt o requirements. subst o requirements.
  rewrite joinpath_requirements, joinpath_service in *.
  rewrite build_result_eq, build_kinds_eq.
  unfold build_summary. rewrite Hfresh. unfold block_summary. cbn zeta.
  assert (Hnone := nothing_under_fresh w d rest Hwf Hfresh).
  rewrite (fresh_requirements d (fs w) Hnone), Hget.
  rewrite (fresh_service d (fs w) _ Hnone), Hfmt.
  cbn [fst snd after_result after_events map app]. split; [done |].
  rewrite <- ?app_assoc. cbn [app]. reflexivity.
Qed.

Section Calls.

Variables (P : Platform) (name : string) (version : option string)
  (model : string) (python : option string)
  (system_packages extra_python_packages : list string) (push : bool)
  (workflow : string) (w : World).

Abbreviation the_run :=
  (build P name version model python system_packages extra_python_packages
     push workflow w).

(** A run in which the build routine is called: the call belongs to the
    block, and what follows the block is decided by what the routine
    returned. *)
Lemma build_call_decides (args : BuildArgs) (snap : gmap PurePath Node) :
  In (EvBuild args, snap) (events the_run) →
  ∃ d blk m,
    let r := match bentoml_build P args snap with
             | inl e => Raise e
             | inr bento => Ok bento
             end in
    Forall (λ x, in_block P name version model python system_packages
                   extra_python_packages workflow (<[Path [d] := Dir]> (fs w))
                   d x.1 x.2) blk
    ∧ result the_run = after_result P push workflow (rmtree m d) r
    ∧ fs (final the_run) = rmtree m d
    ∧ events the_run
      = (EvMkdtemp d, fs w)
        :: blk ++ (EvCleanup d, m) :: after_events P push workflow (rmtree m d) r.
Proof.
  intros Hin.
  destruct (build_outcome P name version model python system_packages
              extra_python_packages push workflow w)
    as [[_ [Hev _]] | [d [r [blk [m [_ [Hpost [Hres [Hfs Hev]]]]]]]]].
  { rewrite Hev in Hin. destruct Hin. }
  destruct Hpost as [Hblk [Hret _]].
  exists d, blk, m. cbn zeta.
  assert (Hr : r = match bentoml_build P args snap with
                   | inl e => Raise e
                   | inr bento => Ok bento
                   end).
  { rewrite Hev in Hin. destruct Hin as [Heq|Hin]; [discriminate Heq |].
    apply in_app_iff in Hin. destruct Hin as [Hin|[Heq|Hin]].
    - by apply Hret.
    - discriminate Heq.
    - apply after_events_inv in Hin.
      destruct Hin as [_ [bento [_ [H|[_ [H|[H _]]]]]]]; discriminate H. }
  rewrite <- Hr. auto.
Qed.

Lemma block_kinds (init : gmap PurePath Node) (d : string)
    (blk : list (Event * gmap PurePath Node)) (e : Event) :
  Forall (λ x, in_block P name version model python system_packages
                 extra_python_packages workflow init d x.1 x.2) blk →
  In e (map fst blk) →
  match e with
  | EvPrint text => In text creating_texts
  | EvPackModel _ _ | EvPush _ | EvMkdtemp _ | EvCleanup _ => False
  | _ => True
  end.
Proof.
  intros Hblk Hin. apply in_map_iff in Hin. destruct Hin as [[e' snap] [<- Hin]].
  rewrite Forall_forall in Hblk. apply list_elem_of_In, Hblk in Hin.
  cbn [fst snd] in *. destruct Hin as [_ Hkind]. by destruct e'.
Qed.

End Calls.

(** X10.  When the build routine raises, [build] raises the same
    exception: the push routine is not called, even with [--push], nothing
    but the three progress lines was printed, and the last effect is the
    removal of the directory. *)
Theorem build_routine_error (P : Platform) (name : string)
    (version : option string) (model : string) (python : option string)
    (system_packages extra_python_packages : list string) (push : bool)
    (workflow : string) (w : World) (args : BuildArgs)
    (snap : gmap PurePath Node) (e : Exn) :
  let o := build P name version model python system_packages
             extra_python_packages push workflow w in
  In (EvBuild args, snap) (events o) →
  bentoml_build P args snap = inl e →
  result o = Raise e
  ∧ (∀ bento, ¬ In (EvPush bento) (kinds o))
  ∧ (∀ text, In (EvPrint text) (kinds o) → In text creating_texts)
  ∧ ∃ d, last (kinds o) = Some (EvCleanup d).
Proof.
  intros o Hin Hraise. subst o.
  destruct (build_call_decides _ _ _ _ _ _ _ _ _ _ _ _ Hin)
    as [d [blk [m [Hblk [Hres [_ Hev]]]]]].
  rewrite Hraise in Hres, Hev. cbn [after_result after_events] in Hres, Hev.
  unfold kinds. rewrite Hev. cbn [map fst]. rewrite map_app. cbn [map fst].
  split; [exact Hres |]. split; [| split].
  - intros bento [Heq|Hk]; [discriminate Heq |].
    apply in_app_iff in Hk. destruct Hk as [Hk|[Heq|[]]]; [| discriminate Heq].
    by apply (block_kinds _ _ _ _ _ _ _ _ _ _ _ _ Hblk) in Hk.
  - intros text [Heq|Hk]; [discriminate Heq |].
    apply in_app_iff in Hk. destruct Hk as [Hk|[Heq|[]]]; [| discriminate Heq].
    by apply (block_kinds _ _ _ _ _ _ _ _ _ _ _ _ Hblk) in Hk.
  - exists d. rewrite app_comm_cons. apply last_snoc.
Qed.

(** X11.  With [--push], when the success message renders and the push
    routine raises, [build] raises the same exception: the success message
    was printed, the push is the last effect, and no deployment hint is
    printed. *)
Theorem build_push_error (P : Platform) (name : string)
    (version : option string) (model : string) (python : option string)
    (system_packages extra_python_packages : list string)
    (workflow : string) (w : World) (args : BuildArgs)
    (snap : gmap PurePath Node) (bento : Bento) (e : Exn) :
  let o := build P name version model python system_packages
             extra_python_packages true workflow w in
  In (EvBuild args, snap) (events o) →
  bentoml_build P args snap = inr bento →
  print_result P (built_message (bento_tag bento) workflow) = inr tt →
  bentoml_push P bento (fs (final o)) = inl e →
  result o = Raise e
  ∧ In (EvPrint (built_message (bento_tag bento) workflow)) (kinds o)
  ∧ last (kinds o) = Some (EvPush bento)
  ∧ ∀ tag, ¬ In (EvPrint (Str.concat (next_steps tag))) (kinds o).
Proof.
  intros o Hin Hbuilt Hprint Hpush. subst o.
  destruct (build_call_decides _ _ _ _ _ _ _ _ _ _ _ _ Hin)
    as [d [blk [m [Hblk [Hres [Hfs Hev]]]]]].
  rewrite Hbuilt in Hres, Hev. rewrite Hfs in Hpush.
  cbn [after_result after_events] in Hres, Hev.
  rewrite Hprint, Hpush in Hres, Hev.
  unfold kinds. rewrite Hev. cbn [map fst]. rewrite map_app. cbn [map fst].
  split; [exact Hres |]. split; [| split].
  - right. apply in_app_iff. right. right. by left.
  - rewrite app_comm_cons.
    change (EvCleanup d :: ?x :: [EvPush bento])
      with ([EvCleanup d; x] ++ [EvPush bento]).
    rewrite app_assoc. apply last_snoc.
  - intros tag [Heq|Hk]; [discriminate Heq |].
    apply in_app_iff in Hk.
    destruct Hk as [Hk|[Heq|[Heq|[Heq|[]]]]]; try discriminate Heq.
    apply (block_kinds _ _ _ _ _ _ _ _ _ _ _ _ Hblk) in Hk.
    by apply (next_steps_not_creating tag) in Hk.
Qed.

(** X12.  [build] returns exactly when the build routine was called and
    returned a bento, the success message rendered and, with [--push], the
    push routine returned and the deployment hint rendered too. *)
Theorem build_returns_iff (P : Platform) (name : string)
    (version : option string) (model : string) (python : option string)
    (system_packages extra_python_packages : list string) (push : bool)
    (workflow : string) (w : World) :
  let o := build P name version model python system_packages
             extra_python_packages push workflow w in
  result o = Ok tt
  ↔ ∃ args snap bento,
      In (EvBuild args, snap) (events o)
      ∧ bentoml_build P args snap = inr bento
      ∧ print_result P (built_message (bento_tag bento) workflow) = inr tt
      ∧ (push = true →
         bentoml_push P bento (fs (final o)) = inr tt
         ∧ print_result P (Str.concat (next_steps (bento_tag bento))) = inr tt).
Proof.
  intros o. subst o. split.
  - intros Hok.
    destruct (build_ok_called P name version model python system_packages
                extra_python_packages push workflow w Hok) as [args [snap Hin]].
    exists args, snap.
    destruct (build_call_decides _ _ _ _ _ _ _ _ _ _ _ _ Hin)
      as [d [blk [m [_ [Hres [Hfs _]]]]]].
    rewrite Hres in Hok. rewrite Hfs.
    destruct (bentoml_build P args snap) as [e|bento]; [discriminate Hok |].
    exists bento. split; [exact Hin |]. split; [done |].
    cbn [after_result] in Hok.
    destruct (print_result P (built_message _ _)) as [|[]];
      [discriminate Hok |].
    split; [done |]. intros ->.
    destruct (bentoml_push P bento (rmtree m d)) as [|[]];
      [discriminate Hok |].
    destruct (print_result P (Str.concat _)) as [|[]];
      [discriminate Hok | done].
  - intros [args [snap [bento [Hin [Hbuilt [Hprint Hpush]]]]]].
    destruct (build_call_decides _ _ _ _ _ _ _ _ _ _ _ _ Hin)
      as [d [blk [m [_ [Hres [Hfs _]]]]]].
    rewrite Hres, Hbuilt. rewrite Hfs in Hpush. cbn [after_result].
    rewrite Hprint.
    destruct push; [| done]. by destruct (Hpush eq_refl) as [-> ->].
Qed.

(** ** The file system the build routine sees *)

Lemma then_sees {A B} (m : M A) (k : A → M B) (w : World) :
  logs not_build m w (λ r w',
    match r with
    | Ok a => satisfies (k a) w' (λ _ w2 evs, build_sees_final w2 evs)
    | Raise _ => True
    end) →
  satisfies (m ≫= k) w (λ _ w2 evs, build_sees_final w2 evs).
Proof.
  intros H. apply satisfies_bind. revert H. unfold logs, satisfies.
  assert (Hno : ∀ evs args snap,
            Forall (λ x, not_build x.1 x.2) evs → ¬ In (EvBuild args, snap) evs).
  { intros evs args snap Hq Hin. rewrite Forall_forall in Hq.
    apply list_elem_of_In, Hq in Hin. by destruct (Hin args). }
  destruct (result (m w)) as [a|e]; intros [Hq Hk].
  - intros args snap [Hin|Hin]%in_app_iff; [| exact (Hk args snap Hin)].
    by destruct (Hno _ _ _ Hq Hin).
  - intros args snap Hin. by destruct (Hno _ _ _ Hq Hin).
Qed.

Lemma build_in_call_snapshot (P : Platform) (name : string)
    (version : option string) (model : string) (python : option string)
    (system_packages extra_python_packages : list string) (workflow : string)
    (temp_dir : string) (w : World) :
  fs w !! Path [temp_dir] = Some Dir →
  let o := build_in P name version model python system_packages
             extra_python_packages workflow temp_dir w in
  ∀ args snap, In (EvBuild args, snap) (events o) → snap = fs (final o).
Proof.
  intros Hdir o. subst o.
  change (satisfies (build_in P name version model python system_packages
                       extra_python_packages workflow temp_dir) w
            (λ _ w' evs, build_sees_final w' evs)).
  unfold build_in.
  rewrite joinpath_requirements, joinpath_service, joinpath_workflow.
  set (d := Path [temp_dir]) in *.
  set (req := child d "requirements.txt").
  set (svc := child d "service.py").
  set (wf := child d "workflow.json").
  assert (Hrd : req ≠ d) by apply child_ne_dir.
  assert (Hsd : svc ≠ d) by apply child_ne_dir.
  assert (Hrs : req ≠ svc) by (intros H%child_inj; discriminate H).
  apply then_sees, logs_log; [done |].
  apply then_sees, logs_bind, logs_open_w; [done | | ].
  { subst req. by rewrite parent_of_child. }
  destruct (fs w !! req) as [[c0|]|]; [| done |].
  all: apply logs_bind; unfold call_get_requirements; apply logs_call; [done |].
  all: cbn [fs with_fs].
  all: destruct (get_requirements P python _) as [e|base]; [done |].
  all: apply logs_bind, logs_write; [done |]; cbn [fs with_fs].
  all: rewrite lookup_insert_eq, insert_insert_eq.
  all: apply (logs_write_lines _ _ _ ("" +:+ base));
    [cbn [fs with_fs]; apply lookup_insert_eq | done |].
  all: cbn [fs with_fs]; unfold with_fs at 1 2; cbn [fs gettempdir tmpnames].
  all: rewrite insert_insert_eq.
  all: match goal with |- context [MkWorld ?m _ _] => set (m2 := m) end.
  all: assert (Hd2 : m2 !! d = Some Dir) by (subst m2; by rewrite lookup_insert_ne).
  all: clearbody m2.
  all: apply then_sees, logs_log; [done |].
  all: apply then_sees, logs_bind, logs_open_w;
    [done | subst svc; by rewrite parent_of_child |].
  all: cbn [fs].
  all: destruct (m2 !! svc) as [[c1|]|]; [| done |].
  all: apply logs_bind, logs_lift.
  all: destruct (Format.format _ _) as [e|text]; [done |].
  all: apply logs_write; [done |]; cbn [fs with_fs].
  all: rewrite lookup_insert_eq, insert_insert_eq.
  all: unfold with_fs; cbn [fs gettempdir tmpnames].
  all: match goal with |- context [MkWorld ?m _ _] => set (m3 := m) end.
  all: assert (Hd3 : m3 !! d = Some Dir) by (subst m3; by rewrite lookup_insert_ne).
  all: clearbody m3.
  all: apply then_sees, logs_log; [done |].
  all: apply then_sees, logs_copy2;
    [done | subst wf; by rewrite parent_of_child |].
  all: cbn [fs].
  all: destruct (m3 !! Path [workflow]) as [[c|]|]; [| done | done].
  all: unfold call_build; apply satisfies_call; cbn [fs with_fs].
  all: destruct (bentoml_build P _ _).
  all: intros args snap [Heq|[]]; by injection Heq as <- <-.
Qed.

Ltac kinds_cases H :=
  cbn [In app] in H; rewrite ?in_app_iff in H; cbn [In] in H;
  decompose [or] H; clear H;
  try discriminate;
  try match goal with
      | H' : In (EvBuild _) (requirements_writes _ _ _) |- _ =>
          by apply requirements_writes_no_build in H'
      | H' : In (EvBuild _) (map _ _) |- _ =>
          apply in_map_iff in H'; destruct H' as [? [H' _]]; discriminate H'
      | H' : False |- _ => destruct H'
      end.

(** X15.  In a well-formed file system the build routine runs in the file
    system [build] started in plus the temporary directory with its three
    files: [workflow.json] holds the text of the workflow file as it was
    given. *)
Theorem build_routine_sees (P : Platform) (name : string)
    (version : option string) (model : string) (python : option string)
    (system_packages extra_python_packages : list string) (push : bool)
    (workflow : string) (w : World) (c : string) (args : BuildArgs)
    (snap : gmap PurePath Node) :
  well_formed (fs w) →
  fs w !! Path [workflow] = Some (File c) →
  In (EvBuild args, snap)
    (events (build P name version model python system_packages
               extra_python_packages push workflow w)) →
  snap !! joinpath (Path [arg_build_ctx args]) "workflow.json" = Some (File c)
  ∧ ∃ base text,
      snap = build_context (arg_build_ctx args) (fs w)
               (requirements_text base extra_python_packages) text c.
Proof.
  intros Hwf Hfile Hin. rewrite build_run in Hin.
  destruct (fresh_dir _ _ _ _ _) as [[d rest]|] eqn:Hfresh; [| destruct Hin].
  assert (Hnone := nothing_under_fresh w d rest Hwf Hfresh).
  set (w1 := MkWorld (<[Path [d] := Dir]> (fs w)) (gettempdir w) rest) in *.
  assert (Hsnap := build_in_call_snapshot P name version model python
                     system_packages extra_python_packages workflow d w1
                     (lookup_insert_eq _ _ _)).
  assert (Hsum := build_in_summary P name version model python system_packages
                    extra_python_packages workflow d w1 (lookup_insert_eq _ _ _)).
  cbn zeta in Hin, Hsnap, Hsum. unfold kinds in Hsum.
  destruct (build_in P _ _ _ _ _ _ _ _ _) as [r w2 blk].
  cbn [result final events fs] in *.
  destruct Hin as [Heq|Hin]; [discriminate Heq |].
  apply in_app_iff in Hin. destruct Hin as [Hin|[Heq|Hin]].
  2: discriminate Heq.
  2: { apply after_events_inv in Hin.
       destruct Hin as [_ [bento [_ [H|[_ [H|[H _]]]]]]]; discriminate H. }
  rewrite (Hsnap args snap Hin).
  assert (Hkind : In (EvBuild args) (map fst blk)).
  { apply in_map_iff. by exists (EvBuild args, snap). }
  clear Hsnap Hin. revert Hsum. unfold block_summary. cbn zeta.
  change (fs w1) with (<[Path [d] := Dir]> (fs w)).
  rewrite (fresh_requirements d (fs w) Hnone).
  destruct (get_requirements P python _) as [e|base].
  { intros [= _ Hk _]. rewrite Hk in Hkind. kinds_cases Hkind. }
  rewrite (fresh_service d (fs w) _ Hnone).
  destruct (Format.format _ _) as [e|text].
  { intros [= _ Hk _]. rewrite Hk in Hkind. kinds_cases Hkind. }
  rewrite outside_lookup by (by eapply present_outside).
  rewrite Hfile. intros [= _ Hk Hfs].
  assert (Hargs : args = build_args name version d system_packages).
  { rewrite Hk in Hkind. kinds_cases Hkind.
    match goal with H : EvBuild _ = EvBuild _ |- _ => by injection H end. }
  rewrite Hargs. cbn [arg_build_ctx build_args]. rewrite Hfs.
  rewrite joinpath_workflow. split; [apply lookup_insert_eq |].
  by exists base, text.
Qed.


(** ** The shape of every run of [build] *)

(** X13.  Every run of [build] that creates its temporary directory
    creates it first and once, removes it once, does all the work on files
    and the call of the build routine in between, and only prints and
    pushes after the removal; the packer is never called. *)
Theorem build_effects_bracketed (P : Platform) (name : string)
    (version : option string) (model : string) (python : option string)
    (system_packages extra_python_packages : list string) (push : bool)
    (workflow : string) (w : World) :
  let o := build P name version model python system_packages
             extra_python_packages push workflow w in
  (kinds o = [] ∧ result o = Raise FileExistsError)
  ∨ ∃ d blk rep,
      kinds o = EvMkdtemp d :: blk ++ EvCleanup d :: rep
      ∧ Forall is_block_effect blk
      ∧ Forall is_report rep
      ∧ length rep ≤ 3.
Proof.
  intros o. subst o. unfold kinds.
  destruct (build_outcome P name version model python system_packages
              extra_python_packages push workflow w)
    as [[Hr [Hev _]] | [d [r [blk [m [_ [[Hblk _] [_ [_ Hev]]]]]]]]].
  { left. by rewrite Hev. }
  right. exists d, (map fst blk),
    (map fst (after_events P push workflow (rmtree m d) r)).
  rewrite Hev. cbn [map fst]. rewrite map_app. cbn [map fst].
  split; [done |]. split; [| split].
  - apply Forall_forall. intros e He. apply list_elem_of_In in He.
    apply (block_kinds _ _ _ _ _ _ _ _ _ _ _ _ Hblk) in He.
    by destruct e.
  - unfold after_events. destruct r as [bento|]; [| constructor].
    destruct (print_result P _); [by repeat constructor |].
    destruct push; [| by repeat constructor].
    destruct (bentoml_push P bento _); by repeat constructor.
  - unfold after_events. destruct r as [bento|]; [| cbn; lia].
    destruct (print_result P _); [cbn; lia |].
    destruct push; [| cbn; lia].
    destruct (bentoml_push P bento _); cbn; lia.
Qed.

Lemma lookup_kw_other (key name model : string) :
  key ≠ "name" → key ≠ "model_tag" →
  Format.lookup_kw key [("name", name); ("model_tag", model)] = None.
Proof.
  intros H1 H2. cbn [Format.lookup_kw].
  destruct (String.eqb_spec "name" key) as [<-|_]; [done |].
  destruct (String.eqb_spec "model_tag" key) as [<-|_]; [done |].
  reflexivity.
Qed.

(** X8.  The template may only use the fields [{name}] and [{model_tag}]:
    with any other field [format] raises, [build] never calls the build
    routine and does not return. *)
Theorem build_unknown_field (P : Platform) (name : string)
    (version : option string) (model : string) (python : option string)
    (system_packages extra_python_packages : list string) (push : bool)
    (workflow : string) (w : World) (key : string) :
  Format.mentions (service_template P) key →
  key ≠ "name" → key ≠ "model_tag" →
  let o := build P name version model python system_packages
             extra_python_packages push workflow w in
  (∃ e, Format.format (service_template P) [("name", name); ("model_tag", model)]
        = inl e)
  ∧ (∀ args, ¬ In (EvBuild args) (kinds o))
  ∧ result o ≠ Ok tt.
Proof.
  intros Hkey H1 H2 o. subst o.
  assert (Hfail : ∀ text,
            Format.format (service_template P)
              [("name", name); ("model_tag", model)] ≠ inr text).
  { intros text Htext.
    destruct (format_mentions _ _ _ _ Htext Hkey) as [v [Hv _]].
    by rewrite lookup_kw_other in Hv. }
  assert (Hnever : ∀ args snap,
            ¬ In (EvBuild args, snap)
                (events (build P name version model python system_packages
                           extra_python_packages push workflow w))).
  { intros args snap Hin. apply build_call_inv in Hin.
    destruct Hin as [_ [_ [_ [_ [_ [[text [Htext _]] _]]]]]].
    by apply (Hfail text). }
  split; [| split].
  - destruct (Format.format _ _) as [e|text]; [by exists e |].
    by destruct (Hfail text).
  - intros args Hin. apply in_map_iff in Hin.
    destruct Hin as [[e snap] [Heq Hin]]. cbn [fst] in Heq. subst e.
    by apply (Hnever args snap).
  - intros Hok. apply build_ok_called in Hok.
    destruct Hok as [args [snap Hin]]. by apply (Hnever args snap).
Qed.

(** ** [pack], the other exits *)


(** X2.  On a valid workspace an exception of the packer leaves [pack]
    unchanged, after the one call of the packer; nothing is printed. *)
Theorem pack_packer_error (P : Platform) (name : string)
    (version : option string) (workspace : string) (w : World) (e : Exn) :
  (∀ fp, In fp comfy_fingerprints → is_Some (fs w !! Path [workspace; fp])) →
  pack_model P (model_name name version) workspace (fs w) = inl e →
  let o := pack P name version workspace w in
  result o = Raise e
  ∧ pack_calls o = [(model_name name version, workspace)]
  ∧ printed o = []
  ∧ final o = w.
Proof.
  intros Hall Hraise o. subst o.
  rewrite pack_run, (check_all_present _ _ Hall). cbn [result].
  cbn zeta. rewrite Hraise. by repeat split.
Qed.


(** X16.  On a valid workspace, when the packer has returned a tag and
    [rich.print] raises on the confirmation text, [pack] raises that
    exception after the one call of the packer: the confirmation is the
    last text handed to [rich.print], and the hint is not printed. *)
Theorem pack_confirmation_error (P : Platform) (name : string)
    (version : option string) (workspace : string) (w : World)
    (tag : string) (e : Exn) :
  (∀ fp, In fp comfy_fingerprints → is_Some (fs w !! Path [workspace; fp])) →
  pack_model P (model_name name version) workspace (fs w) = inr tag →
  print_result P (packed_message workspace tag) = inl e →
  let o := pack P name version workspace w in
  result o = Raise e
  ∧ pack_calls o = [(model_name name version, workspace)]
  ∧ printed o = [packed_message workspace tag]
  ∧ final o = w.
Proof.
  intros Hall Htag Hprint o. subst o.
  rewrite pack_run, (check_all_present _ _ Hall). cbn [result].
  cbn zeta. rewrite Htag, Hprint. by repeat split.
Qed.

(** X4.  A version written into the name is taken as the version: [pack]
    with the name [n:v] and no version runs exactly as with the name [n]
    and the version [v]. *)
Theorem pack_version_in_name (P : Platform) (name v workspace : string)
    (w : World) :
  v ≠ "" →
  pack P (name +:+ ":" +:+ v) None workspace w
  = pack P name (Some v) workspace w.
Proof.
  intros Hv. rewrite !pack_run.
  assert (Hname : model_name (name +:+ ":" +:+ v) None
                  = model_name name (Some v)).
  { unfold model_name. by destruct v. }
  by rewrite Hname.
Qed.

(** ** Runs on the site *)

Lemma site_well_formed : well_formed Site.files.
Proof.
  intros p x Hp Hne. unfold Site.files in *.
  destruct (decide (p = Path ["/"])) as [->|H1]; [by destruct Hne |].
  destruct (decide (p = Path ["/tmp"])) as [->|H2]; [by vm_compute |].
  destruct (decide (p = Path ["/wf.json"])) as [->|H3]; [by vm_compute |].
  rewrite !lookup_insert_ne in Hp by done. by rewrite lookup_empty in Hp.
Qed.

Lemma site_fresh :
  fresh_dir (fs Site.world) (gettempdir Site.world) "bentoml-comfyui-" "-bento"
    (tmpnames Site.world)
  = Some ("/tmp/bentoml-comfyui-abc-bento", ["def"]).
Proof. vm_compute. reflexivity. Qed.


Lemma markup_well_formed : well_formed Site.markup_files.
Proof.
  intros p x Hp Hne. unfold Site.markup_files, Site.files in *.
  destruct (decide (p = Path ["/w[/x]"; "comfy"])) as [->|H1];
    [by vm_compute |].
  destruct (decide (p = Path ["/w[/x]"; "comfy_execution"])) as [->|H2];
    [by vm_compute |].
  destruct (decide (p = Path ["/w[/x]"; "comfy_extras"])) as [->|H3];
    [by vm_compute |].
  destruct (decide (p = Path ["/w[/x]"])) as [->|H4]; [by vm_compute |].
  destruct (decide (p = Path ["/w[/x].json"])) as [->|H5]; [by vm_compute |].
  destruct (decide (p = Path ["/w["])) as [->|H6]; [by vm_compute |].
  destruct (decide (p = Path ["/"])) as [->|H7]; [by destruct Hne |].
  destruct (decide (p = Path ["/tmp"])) as [->|H8]; [by vm_compute |].
  destruct (decide (p = Path ["/wf.json"])) as [->|H9]; [by vm_compute |].
  rewrite !lookup_insert_ne in Hp by done. by rewrite lookup_empty in Hp.
Qed.

Lemma build_success_message_error_witness :
  let o := build Demo.platform "svc" None "comfyui" None ["curl"]
             ["numpy"; "pillow"] true "/w[/x].json" Site.markup_world in
  result o = Raise (MarkupError "closing tag does not match an open tag")
  ∧ last (kinds o) = Some (EvPrint (built_message "svc:v1" "/w[/x].json")).
Proof.
  destruct (build_success_message_error Demo.platform "svc" None "comfyui"
              None ["curl"] ["numpy"; "pillow"] true "/w[/x].json"
              Site.markup_world "/tmp/bentoml-comfyui-abc-bento" ["def"]
              "torch==2.0" "svc(svc, comfyui)" "{}" (MkBento "svc:v1")
              (MarkupError "closing tag does not match an open tag"))
    as [Hr [Hk _]].
  - exact markup_well_formed.
  - vm_compute. reflexivity.
  - reflexivity.
  - vm_compute. reflexivity.
  - vm_compute. reflexivity.
  - reflexivity.
  - vm_compute. reflexivity.
  - cbv zeta. split; [exact Hr |]. rewrite Hk. reflexivity.
Defined.


Lemma build_requirements_error_witness :
  result (Site.run Site.no_requirements true "/wf.json")
  = Raise (PlatformError "no interpreter")
  ∧ length (kinds (Site.run Site.no_requirements true "/wf.json")) = 5.
Proof.
  destruct (build_requirements_error Site.no_requirements "svc" None "comfyui"
              None ["curl"] ["numpy"; "pillow"] true "/wf.json" Site.world
              "/tmp/bentoml-comfyui-abc-bento" ["def"]
              (PlatformError "no interpreter"))
    as [Hr Hk].
  - exact site_well_formed.
  - exact site_fresh.
  - reflexivity.
  - split; [exact Hr |]. unfold Site.run. rewrite Hk. reflexivity.
Defined.

Lemma build_template_error_witness :
  result (Site.run Site.bad_template true "/wf.json") = Raise (KeyError "tag").
Proof.
  destruct (build_template_error Site.bad_template "svc" None "comfyui"
              None ["curl"] ["numpy"; "pillow"] true "/wf.json" Site.world
              "/tmp/bentoml-comfyui-abc-bento" ["def"] "torch==2.0"
              (KeyError "tag"))
    as [Hr _].
  - exact site_well_formed.
  - exact site_fresh.
  - reflexivity.
  - vm_compute. reflexivity.
  - exact Hr.
Defined.

Lemma site_build_called (P : Platform) (push : bool) :
  get_requirements P = get_requirements Demo.platform →
  service_template P = service_template Demo.platform →
  ∃ snap,
    In (EvBuild (build_args "svc" None "/tmp/bentoml-comfyui-abc-bento" ["curl"]),
        snap) (events (Site.run P push "/wf.json")).
Proof.
  intros Hget Htpl.
  assert (Hk : In (EvBuild (build_args "svc" None
                              "/tmp/bentoml-comfyui-abc-bento" ["curl"]))
                 (kinds (Site.run P push "/wf.json"))).
  { unfold Site.run. rewrite build_kinds_eq. unfold build_summary.
    rewrite site_fresh. unfold block_summary. cbn zeta.
    rewrite Hget, Htpl.
    rewrite (fresh_requirements _ _
               (nothing_under_fresh Site.world _ _ site_well_formed site_fresh)).
    cbn [get_requirements Demo.platform].
    rewrite (fresh_service _ _ _
               (nothing_under_fresh Site.world _ _ site_well_formed site_fresh)).
    assert (Hfmt : Format.format (service_template Demo.platform)
                     [("name", "svc"); ("model_tag", "comfyui")]
                   = inr "svc(svc, comfyui)") by (vm_compute; reflexivity).
    rewrite Hfmt.
    rewrite outside_lookup
      by (intros [_ [l Hl]]; vm_compute in Hl; discriminate Hl).
    assert (Hfile : fs Site.world !! Path ["/wf.json"] = Some (File "{}"))
      by (vm_compute; reflexivity).
    rewrite Hfile. cbn [fst snd]. right.
    apply in_app_iff. left. apply in_app_iff. right. by left. }
  apply in_map_iff in Hk. destruct Hk as [[e snap] [Heq Hin]].
  cbn [fst] in Heq. subst e. by exists snap.
Qed.

Lemma build_routine_error_witness :
  result (Site.run Demo.failing_platform true "/wf.json")
  = Raise (PlatformError "build failed").
Proof.
  destruct (site_build_called Demo.failing_platform true eq_refl eq_refl)
    as [snap Hin].
  destruct (build_routine_error Demo.failing_platform "svc" None "comfyui"
              None ["curl"] ["numpy"; "pillow"] true "/wf.json" Site.world
              _ snap (PlatformError "build failed") Hin eq_refl)
    as [Hr _].
  exact Hr.
Defined.

Lemma build_push_error_witness :
  result (Site.run Site.no_push true "/wf.json")
  = Raise (PlatformError "not logged in")
  ∧ last (kinds (Site.run Site.no_push true "/wf.json"))
    = Some (EvPush (MkBento "svc:v1")).
Proof.
  destruct (site_build_called Site.no_push true eq_refl eq_refl)
    as [snap Hin].
  assert (Hpush : ∀ m, bentoml_push Site.no_push (MkBento "svc:v1") m
                       = inl (PlatformError "not logged in"))
    by (intros m; reflexivity).
  assert (Hprint : print_result Site.no_push (built_message "svc:v1" "/wf.json")
                   = inr tt) by (vm_compute; reflexivity).
  destruct (build_push_error Site.no_push "svc" None "comfyui"
              None ["curl"] ["numpy"; "pillow"] "/wf.json" Site.world
              _ snap (MkBento "svc:v1") (PlatformError "not logged in")
              Hin eq_refl Hprint (Hpush _))
    as [Hr [_ [Hlast _]]].
  unfold Site.run. split; [exact Hr | exact Hlast].
Defined.

Lemma build_routine_sees_witness :
  ∃ args snap,
    In (EvBuild args, snap) (events (Site.run Demo.platform false "/wf.json"))
    ∧ snap !! Path ["/tmp/bentoml-comfyui-abc-bento"; "workflow.json"]
      = Some (File "{}").
Proof.
  destruct (site_build_called Demo.platform false eq_refl eq_refl)
    as [snap Hin].
  exists (build_args "svc" None "/tmp/bentoml-comfyui-abc-bento" ["curl"]), snap.
  split; [exact Hin |].
  destruct (build_routine_sees Demo.platform "svc" None "comfyui" None ["curl"]
              ["numpy"; "pillow"] false "/wf.json" Site.world "{}"
              (build_args "svc" None "/tmp/bentoml-comfyui-abc-bento" ["curl"])
              snap site_well_formed) as [Hwf _].
  - vm_compute. reflexivity.
  - exact Hin.
  - exact Hwf.
Defined.

Lemma build_unknown_field_witness :
  result (Site.run Site.bad_template false "/wf.json") ≠ Ok tt.
Proof.
  assert (Hkey : Format.mentions (service_template Site.bad_template) "tag").
  { eexists. split; [vm_compute; reflexivity |]. cbn [In]. auto 20. }
  destruct (build_unknown_field Site.bad_template "svc" None "comfyui" None
              ["curl"] ["numpy"; "pillow"] false "/wf.json" Site.world "tag"
              Hkey)
    as [_ [_ Hr]].
  - intros H. discriminate H.
  - intros H. discriminate H.
  - exact Hr.
Defined.


Lemma pack_packer_error_witness :
  result (pack Site.no_packer "comfyui" None "ws" Demo.world)
  = Raise (PlatformError "store is read-only")
  ∧ printed (pack Site.no_packer "comfyui" None "ws" Demo.world) = [].
Proof.
  destruct (pack_packer_error Site.no_packer "comfyui" None "ws" Demo.world
              (PlatformError "store is read-only"))
    as [Hr [_ [Hp _]]].
  - intros fp [<-|[<-|[<-|[]]]]; vm_compute; eauto.
  - reflexivity.
  - split; [exact Hr | exact Hp].
Defined.

Lemma pack_version_in_name_witness :
  pack Demo.platform ("comfyui" +:+ ":" +:+ "1.0") None "ws" Demo.world
  = pack Demo.platform "comfyui" (Some "1.0") "ws" Demo.world.
Proof.
  apply (pack_version_in_name Demo.platform "comfyui" "1.0" "ws" Demo.world).
  intros H. discriminate H.
Defined.

Lemma pack_confirmation_error_witness :
  let o := pack Demo.platform "comfyui" None "/w[/x]" Site.markup_world in
  result o = Raise (MarkupError "closing tag does not match an open tag")
  ∧ pack_calls o = [("comfyui", "/w[/x]")]
  ∧ printed o = [packed_message "/w[/x]" "comfyui:gen"].
Proof.
  destruct (pack_confirmation_error Demo.platform "comfyui" None "/w[/x]"
              Site.markup_world "comfyui:gen"
              (MarkupError "closing tag does not match an open tag"))
    as [Hr [Hc [Hp _]]].
  - intros fp [<-|[<-|[<-|[]]]]; vm_compute; eauto.
  - reflexivity.
  - vm_compute. reflexivity.
  - cbv zeta. split; [exact Hr |]. split; [exact Hc | exact Hp].
Defined.
